(** * Medical Data Anonymizer: the batch anonymization pipeline

    A shallow embedding of [Medical_Data_Anonymizer_Module.py]
    ([onAnonymizeButton], [anonymize_text_presidio],
    [extract_text_from_xml], [save_str_pdf]) and the properties of the
    pipeline that the design document states.

    Python strings are modelled as [string]; a character is a code point
    in the range U+0000..U+00FF.  The libraries the module calls (docx,
    pdfplumber, csv, odf, ElementTree, reportlab, Presidio, uuid, the file
    system) are not part of the module: what they return, or the exception
    they raise, is an input of the model. *)

From Stdlib Require Import Ascii ZArith QArith.
From stdpp Require Import base option list strings gmap.

Local Open Scope Z_scope.
Local Open Scope stdpp_scope.

#[local] Arguments Ascii.eqb : simpl never.
#[local] Arguments String.eqb : simpl never.

(** ** Python's [str] methods and [os.path] functions used by the module *)

Module Py.

Definition code (c : ascii) : N := N_of_ascii c.

(** [str.isspace] on one character of the Latin-1 range. *)
Definition isspace (c : ascii) : bool :=
  let n := code c in
  ((9 <=? n) && (n <=? 13) || (28 <=? n) && (n <=? 32)
   || (n =? 133) || (n =? 160))%N.

(** [str.lower] on one character of the Latin-1 range: A-Z and the
    accented capitals U+00C0..U+00DE (the multiplication sign U+00D7
    apart) move up by 32. *)
Definition lower_char (c : ascii) : ascii :=
  let n := code c in
  if ((65 <=? n) && (n <=? 90)
      || (192 <=? n) && (n <=? 222) && negb (n =? 215))%N
  then ascii_of_N (n + 32) else c.

Fixpoint lower (s : string) : string :=
  match s with
  | EmptyString => EmptyString
  | String c r => String (lower_char c) (lower r)
  end.

Definition len (s : string) : nat := String.length s.

(** [s[n:]] for a natural [n]. *)
Fixpoint drop_str (n : nat) (s : string) : string :=
  match n, s with
  | O, _ => s
  | S _, EmptyString => EmptyString
  | S m, String _ r => drop_str m r
  end.

(** [s[:n]] for a natural [n]. *)
Fixpoint take_str (n : nat) (s : string) : string :=
  match n, s with
  | O, _ => EmptyString
  | S _, EmptyString => EmptyString
  | S m, String c r => String c (take_str m r)
  end.

(** [s.startswith(p)]. *)
Fixpoint startswith (s p : string) {struct p} : bool :=
  match p, s with
  | EmptyString, _ => true
  | String a p', String b s' => Ascii.eqb a b && startswith s' p'
  | String _ _, EmptyString => false
  end.

Definition endswith (s p : string) : bool :=
  (len p <=? len s)%nat && String.eqb (drop_str (len s - len p) s) p.

(** [s.endswith((p1, ..., pn))]. *)
Definition endswith_any (s : string) (ps : list string) : bool :=
  existsb (endswith s) ps.

(** [s.rfind(c)] for a one-character [c]: the last index, or -1. *)
Fixpoint rfind_from (i : Z) (c : ascii) (s : string) : Z :=
  match s with
  | EmptyString => -1
  | String d r =>
      let j := rfind_from (i + 1) c r in
      if 0 <=? j then j else if Ascii.eqb d c then i else -1
  end.

Definition rfind (c : ascii) (s : string) : Z := rfind_from 0 c s.

(** [s[i:j]] for [0 <= i]. *)
Definition slice (i j : Z) (s : string) : string :=
  take_str (Z.to_nat (j - i)) (drop_str (Z.to_nat i) s).

Fixpoint all_chars (f : ascii -> bool) (s : string) : bool :=
  match s with
  | EmptyString => true
  | String c r => f c && all_chars f r
  end.

(** [posixpath.splitext]: the extension starts at the last dot of the
    last path component, unless only dots come before it. *)
Definition splitext (p : string) : string * string :=
  let sepIndex := rfind "/" p in
  let dotIndex := rfind "." p in
  if sepIndex <? dotIndex then
    if all_chars (Ascii.eqb ".") (slice (sepIndex + 1) dotIndex p)
    then (p, EmptyString)
    else (take_str (Z.to_nat dotIndex) p, drop_str (Z.to_nat dotIndex) p)
  else (p, EmptyString).

(** [posixpath.basename]. *)
Definition basename (p : string) : string :=
  drop_str (Z.to_nat (rfind "/" p + 1)) p.

(** [posixpath.join] of two components. *)
Definition path_join (a b : string) : string :=
  if startswith b "/" then b
  else if String.eqb a "" || endswith a "/" then a +:+ b
  else a +:+ "/" +:+ b.

(** [s.replace(old, new)] for a non-empty [old]: the occurrences of
    [old] are found from the left and do not overlap; [skip] counts the
    characters of a matched occurrence still to be passed over. *)
Fixpoint replace_from (skip : nat) (old new s : string) : string :=
  match s with
  | EmptyString => EmptyString
  | String c r =>
      match skip with
      | S k => replace_from k old new r
      | O =>
          if startswith s old
          then new +:+ replace_from (len old - 1) old new r
          else String c (replace_from O old new r)
      end
  end.

Definition replace (s old new : string) : string := replace_from O old new s.

(** [s.split("\n")]. *)
Fixpoint split_nl (s : string) : list string :=
  match s with
  | EmptyString => [EmptyString]
  | String c r =>
      if Ascii.eqb c "010" then EmptyString :: split_nl r
      else match split_nl r with
           | w :: ws => String c w :: ws
           | [] => [String c EmptyString]
           end
  end.

(** [sep.join(l)]. *)
Fixpoint join (sep : string) (l : list string) : string :=
  match l with
  | [] => EmptyString
  | [x] => x
  | x :: r => x +:+ sep +:+ join sep r
  end.

(** [s.split()]: the maximal runs of non-whitespace characters. *)
Fixpoint split_ws (s : string) : list string :=
  match s with
  | EmptyString => []
  | String c r =>
      if isspace c then split_ws r
      else match r with
           | EmptyString => [String c EmptyString]
           | String d _ =>
               if isspace d then String c EmptyString :: split_ws r
               else match split_ws r with
                    | w :: ws => String c w :: ws
                    | [] => [String c EmptyString]
                    end
           end
  end.

Fixpoint lstrip (s : string) : string :=
  match s with
  | EmptyString => EmptyString
  | String c r => if isspace c then lstrip r else s
  end.

Fixpoint rstrip (s : string) : string :=
  match s with
  | EmptyString => EmptyString
  | String c r =>
      match rstrip r with
      | EmptyString => if isspace c then EmptyString else String c EmptyString
      | t => String c t
      end
  end.

(** [s.strip()]. *)
Definition strip (s : string) : string := rstrip (lstrip s).

(** Truth value of a string: non-empty. *)
Definition truthy (s : string) : bool := negb (String.eqb s "").

(** Text-mode reading with universal newlines ([open(path, 'r')] with the
    default [newline=None]): CR LF and a lone CR both arrive as LF. *)
Fixpoint universal_newlines (s : string) : string :=
  match s with
  | EmptyString => EmptyString
  | String c r =>
      if Ascii.eqb c "013" then
        match r with
        | String d r' =>
            if Ascii.eqb d "010" then String "010" (universal_newlines r')
            else String "010" (universal_newlines r)
        | EmptyString => String "010" EmptyString
        end
      else String c (universal_newlines r)
  end.

End Py.


Definition nl : string := String "010" EmptyString.

Definition is_not (c : ascii) : ascii -> bool := fun d => negb (Ascii.eqb d c).

(** A string without a path separator: the name of a directory entry. *)
Definition no_slash (s : string) : bool := Py.all_chars (is_not "/") s.

(** ** What the libraries hand to the module *)

(** A call into a library either returns a value or raises an exception
    (a subclass of [Exception]); [msg] is [str(e)]. *)
Inductive outcome (A : Type) : Type :=
  | Returned (a : A)
  | Raised (msg : string).
Arguments Returned {A} a.
Arguments Raised {A} msg.

#[global] Instance outcome_ret : MRet outcome := fun _ a => Returned a.

#[global] Instance outcome_bind : MBind outcome := fun _ _ k o =>
  match o with
  | Returned a => k a
  | Raised msg => Raised msg
  end.

(** A pdfplumber page: the result of [extract_text()] ([None] or a string)
    and of [extract_tables()] (tables of rows of cells, a cell being [None]
    or a string). *)
Record pdf_page := {
  extract_text : outcome (option string);
  extract_tables : outcome (list (list (list (option string))))
}.

(** An ElementTree element: [text], the children, [tail]. *)
#[warning="-register-all"]
Inductive element : Type :=
  | Element (text : option string) (children : list element)
            (tail : option string).

(** A child node of an ODF paragraph. *)
Inductive odt_node : Type :=
  | TextNode (data : string)
  | OtherNode.

(** What each reader finds in one input file. [as_txt] is the decoded
    content before newline translation; [as_csv] the rows [csv.reader]
    yields; [as_docx] the [text] of the paragraphs. *)
Record source_file := {
  as_docx : outcome (list string);
  as_txt : outcome string;
  as_pdf : outcome (list pdf_page);
  as_csv : outcome (list (list string));
  as_xml : outcome element;
  as_odt : outcome (list (list odt_node))
}.

(** A document handed to a writer. *)
Inductive written_doc : Type :=
  | WDocx (paragraphs : list string)
  | WText (content : string)
  | WPdf (preformatted : string)
  | WCsv (rows : list (list string)).

(** Presidio's [RecognizerResult] and [OperatorConfig]. *)
Record recognizer_result := {
  entity_type : string;
  span_start : Z;
  span_end : Z;
  span_score : Q
}.

Inductive param : Type :=
  | PStr (s : string)
  | PInt (z : Z)
  | PBool (b : bool).

Record OperatorConfig := {
  operator_name : string;
  params : list (string * param)
}.

(** The [operators] dictionary, in the order of its keys. *)
Definition operators := list (string * OperatorConfig).

Record MappingRecord := {
  original_file_name : string;
  anonymized_file_name : string;
  uuid_field : string
}.

(** The six formats the two [if]/[elif] chains of the loop dispatch on. *)
Inductive format : Type := Docx | Txt | Pdf | Csv | Xml | Odt.

Definition format_of_ext (file_ext : string) : option format :=
  if String.eqb file_ext ".docx" then Some Docx
  else if String.eqb file_ext ".txt" then Some Txt
  else if String.eqb file_ext ".pdf" then Some Pdf
  else if String.eqb file_ext ".csv" then Some Csv
  else if String.eqb file_ext ".xml" then Some Xml
  else if String.eqb file_ext ".odt" then Some Odt
  else None.

Definition ext_of_format (f : format) : string :=
  match f with
  | Docx => ".docx" | Txt => ".txt" | Pdf => ".pdf"
  | Csv => ".csv" | Xml => ".xml" | Odt => ".odt"
  end.

(** The Python interpreter when the button is pressed: how many nested
    calls of a Python function it still allows, and [str(e)] of the
    [RecursionError] it raises beyond. *)
Record interpreter := {
  frames_left : nat;
  recursion_error : string
}.

(** ** Document Extractor *)

Module Extractor.

Definition opt_truthy (o : option string) : bool :=
  match o with
  | Some s => Py.truthy s
  | None => false
  end.

Definition opt_str (o : option string) : string :=
  match o with
  | Some s => s
  | None => EmptyString
  end.

(** [.docx]: ["\n".join([para.text for para in doc.paragraphs])]. *)
Definition docx_text (paras : list string) : string := Py.join nl paras.

(** [.txt]: [f.read()]. *)
Definition txt_text (stored : string) : string :=
  Py.universal_newlines stored.

(** [.pdf], first pass: the text of each page in page order; the pass
    stops at the first exception, keeping what was gathered. *)
Fixpoint pdf_text_pass (pages : list pdf_page) (full_text : string)
  : string * option string :=
  match pages with
  | [] => (full_text, None)
  | page :: rest =>
      match extract_text page with
      | Raised e => (full_text, Some e)
      | Returned text =>
          pdf_text_pass rest
            (if opt_truthy text then full_text +:+ opt_str text +:+ nl
             else full_text)
      end
  end.

(** One table row: [" ".join([str(cell) if cell else "" for cell in row])]. *)
Definition row_text (row : list (option string)) : string :=
  Py.join " " (map (fun cell => if opt_truthy cell then opt_str cell
                                 else EmptyString) row).

Definition tables_text (tables : list (list (list (option string))))
  : string :=
  foldl (fun acc table =>
           foldl (fun acc row => acc +:+ row_text row +:+ nl) acc table)
        EmptyString tables.

(** [.pdf], second pass, entered from the [except] of the first: the
    tables of every page; an exception ends it silently. *)
Fixpoint pdf_table_pass (pages : list pdf_page) (full_text : string)
  : string :=
  match pages with
  | [] => full_text
  | page :: rest =>
      match extract_tables page with
      | Raised _ => full_text
      | Returned tables =>
          pdf_table_pass rest (full_text +:+ tables_text tables)
      end
  end.

(** The whole [.pdf] branch. [doc] is what [pdfplumber.open] gives for the
    file, the first time and the second: a document that cannot be opened
    raises in both [try] blocks and leaves the text empty. *)
Definition pdf_text (doc : outcome (list pdf_page)) : string :=
  match doc with
  | Raised _ => EmptyString
  | Returned pages =>
      match pdf_text_pass pages EmptyString with
      | (full_text, None) => full_text
      | (full_text, Some _) => pdf_table_pass pages full_text
      end
  end.

(** [.csv]: [" ".join(row) + "\n"] for each row. *)
Definition csv_text (rows : list (list string)) : string :=
  foldl (fun full_text row => full_text +:+ Py.join " " row +:+ nl)
        EmptyString rows.

(** [extract_text_from_xml]. *)
Fixpoint extract_text_from_xml (e : element) : string :=
  match e with
  | Element text children _ =>
      let start := if opt_truthy text then opt_str text +:+ " "
                   else EmptyString in
      foldl (fun acc child =>
               let acc' := acc +:+ extract_text_from_xml child in
               match child with
               | Element _ _ tail =>
                   if opt_truthy tail then acc' +:+ opt_str tail +:+ " "
                   else acc'
               end)
            start children
  end.

(** The number of calls of [extract_text_from_xml] that are active at
    once on a tree: one for each level of nesting. *)
Fixpoint nesting (e : element) : nat :=
  match e with
  | Element _ children _ =>
      S (foldr (fun child => Nat.max (nesting child)) 0%nat children)
  end.

(** The call of [extract_text_from_xml] on the root: the text, unless the
    tree is nested deeper than the interpreter allows; the
    [RecursionError] then leaves the recursion. *)
Definition xml_text (py : interpreter) (root : element) : outcome string :=
  if (nesting root <=? frames_left py)%nat
  then Returned (extract_text_from_xml root)
  else Raised (recursion_error py).

(** [.odt]: the text nodes of each paragraph, then a newline. *)
Definition odt_text (paragraphs : list (list odt_node)) : string :=
  foldl (fun full_text paragraph =>
           foldl (fun acc node =>
                    match node with
                    | TextNode data => acc +:+ data
                    | OtherNode => acc
                    end) full_text paragraph +:+ nl)
        EmptyString paragraphs.

(** The first [if]/[elif] chain of the loop body. *)
Definition extract (py : interpreter) (file_ext : string)
    (src : source_file) : outcome string :=
  match format_of_ext file_ext with
  | Some Docx => paras ← as_docx src; Returned (docx_text paras)
  | Some Txt => stored ← as_txt src; Returned (txt_text stored)
  | Some Pdf => Returned (pdf_text (as_pdf src))
  | Some Csv => rows ← as_csv src; Returned (csv_text rows)
  | Some Xml => root ← as_xml src; xml_text py root
  | Some Odt => paragraphs ← as_odt src; Returned (odt_text paragraphs)
  | None => Raised ("Unsupported file type: " +:+ file_ext)
  end.

End Extractor.

(** ** The environment of one run *)

(** Everything outside the module: the interpreter, the directory walk,
    the readers, the identifier generator, the two Presidio engines built
    once before the loop, the writers of the documents and
    [DataFrame.to_csv], the writer of the report (which may all raise). *)
Record environment := {
  python : interpreter;
  os_walk : string -> list (string * list string);
  read_file : string -> source_file;
  uuid4 : nat -> string;
  analyze : string -> list string -> Q -> outcome (list recognizer_result);
  anonymize : string -> list recognizer_result -> option operators
              -> outcome string;
  save : string -> written_doc -> outcome unit;
  to_csv : string -> list MappingRecord -> outcome unit
}.

(** What the run does to the outside, in order. *)
Inductive event : Type :=
  | EvAnalyze (text : string) (entities : list string) (threshold : Q)
  | EvOperators (method : string) (ops : operators)
  | EvAnonymize (text : string) (ops : option operators)
  | EvSave (output_path : string) (doc : written_doc).

(** ** Anonymization Policy Engine *)

Module Policy.

Definition config (name : string) (ps : list (string * param))
  : OperatorConfig := {| operator_name := name; params := ps |}.

(** The [if]/[elif] chain on [method] of [anonymize_text_presidio]. *)
Definition build_operators (method : string) (entities : list string)
  : operators :=
  if String.eqb method "replace" then []
  else if String.eqb method "redact" then
    map (fun entity => (entity, config "redact" [])) entities
  else if String.eqb method "hash" then
    map (fun entity => (entity, config "hash" [])) entities
  else if String.eqb method "mask" then
    map (fun entity =>
           (entity, config "mask" [("masking_char", PStr "*");
                                   ("chars_to_mask", PInt 100);
                                   ("from_end", PBool false)])) entities
  else [].

(** [operators if operators else None]. *)
Definition operators_arg (ops : operators) : option operators :=
  match ops with
  | [] => None
  | _ => Some ops
  end.

(** [anonymize_text_presidio]: the text returned and the calls made.
    The [except] branch returns the text it was given. *)
Definition anonymize_text_presidio (env : environment) (text : string)
    (entities : list string) (method : string) (score_threshold : Q)
  : string * list event :=
  let ev1 := EvAnalyze text entities score_threshold in
  match analyze env text entities score_threshold with
  | Raised _ => (text, [ev1])
  | Returned results =>
      let ops := build_operators method entities in
      let ev2 := EvOperators method ops in
      let ev3 := EvAnonymize text (operators_arg ops) in
      match anonymize env text results (operators_arg ops) with
      | Raised _ => (text, [ev1; ev2; ev3])
      | Returned anonymized => (anonymized, [ev1; ev2; ev3])
      end
  end.

End Policy.

(** ** Document Writer *)

Module Writer.

(** [.csv]: a row of [line.split()] for each line with [line.strip()]
    non-empty. *)
Definition csv_rows (anonymized_text : string) : list (list string) :=
  map Py.split_ws
      (List.filter (fun line => Py.truthy (Py.strip line))
                   (Py.split_nl anonymized_text)).

(** [save_str_pdf]: the text as one [Preformatted] block. *)
Definition save_str_pdf (text : string) : written_doc := WPdf text.

(** The document written for each format: the second [if]/[elif] chain of
    the loop body. *)
Definition render (f : format) (anonymized_text : string) : written_doc :=
  match f with
  | Docx => WDocx (Py.split_nl anonymized_text)
  | Txt => WText anonymized_text
  | Pdf => save_str_pdf anonymized_text
  | Csv => WCsv (csv_rows anonymized_text)
  | Xml => WText anonymized_text
  | Odt => WText anonymized_text
  end.

(** [new_file_name]: [file.replace(ext, "_anonymized" + ext)], with
    [".txt"] as the new extension for [.odt]. *)
Definition new_file_name (f : format) (file : string) : string :=
  match f with
  | Odt => Py.replace file ".odt" "_anonymized.txt"
  | _ => Py.replace file (ext_of_format f)
           ("_anonymized" +:+ ext_of_format f)
  end.

End Writer.

(** ** Batch Orchestrator *)

Module Batch.

Definition supported_suffixes : list string :=
  [".docx"; ".txt"; ".pdf"; ".csv"; ".xml"; ".odt"].

(** The test of the discovery loop on one file name. *)
Definition selected (file : string) : bool :=
  Py.endswith_any file supported_suffixes
  && negb (Py.startswith file "~$").

(** [supported_files] after the walk. *)
Definition discover (walk : list (string * list string)) : list string :=
  flat_map (fun '(root, files) =>
              map (Py.path_join root)
                  (filter (fun file => selected file = true) files))
           walk.

Record run_state := {
  file_mappings : list MappingRecord;
  outputs : gmap string written_doc;
  trace : list (nat * event);
  progress : nat
}.

Definition initial : run_state :=
  {| file_mappings := []; outputs := ∅; trace := []; progress := 0%nat |}.

Definition error_record (file msg : string) : MappingRecord :=
  {| original_file_name := file;
     anonymized_file_name := "ERROR";
     uuid_field := "Error: " +:+ msg |}.

Definition success_record (file new_name unique_id : string)
  : MappingRecord :=
  {| original_file_name := file;
     anonymized_file_name := new_name;
     uuid_field := unique_id |}.

Definition save_effect (m : gmap string written_doc) (ev : event)
  : gmap string written_doc :=
  match ev with
  | EvSave path doc => <[path := doc]> m
  | _ => m
  end.

(** The mark an event leaves on the state: every call is appended to
    the trace, and a save that returned puts the document at its path,
    replacing what was there. *)
Definition record_event (idx : nat) (st : run_state) (ev : event)
  : run_state :=
  {| file_mappings := file_mappings st;
     outputs := save_effect (outputs st) ev;
     trace := trace st ++ [(idx, ev)];
     progress := progress st |}.

Definition append (r : MappingRecord) (st : run_state) : run_state :=
  {| file_mappings := file_mappings st ++ [r];
     outputs := outputs st;
     trace := trace st;
     progress := progress st |}.

Definition set_progress (n : nat) (st : run_state) : run_state :=
  {| file_mappings := file_mappings st;
     outputs := outputs st;
     trace := trace st;
     progress := n |}.

Section Run.

Variable env : environment.
Variable output_folder : string.
Variable selected_entities : list string.
Variable anonymization_method : string.
Variable score_threshold : Q.

Definition file_ext_of (input_file_path : string) : string :=
  Py.lower (Py.splitext (Py.basename input_file_path)).2.

Definition output_path_of (f : format) (input_file_path : string)
  : string :=
  Py.path_join output_folder
    (Writer.new_file_name f (Py.basename input_file_path)).

(** The [try] block of the loop body, up to the [append]: the calls
    made, and either the fields [new_file_name] and [unique_id] of a
    success or the message of the exception that left the block. *)
Definition try_file (idx : nat) (input_file_path : string)
  : list event * outcome (string * string) :=
  let file := Py.basename input_file_path in
  let unique_id := uuid4 env idx in
  let file_ext := Py.lower (Py.splitext file).2 in
  match Extractor.extract (python env) file_ext
          (read_file env input_file_path) with
  | Raised e => ([], Raised e)
  | Returned full_text =>
      let '(anonymized_text, evs) :=
        Policy.anonymize_text_presidio env full_text selected_entities
          anonymization_method score_threshold in
      match format_of_ext file_ext with
      | None => (evs, Raised "name 'new_file_name' is not defined")
      | Some f =>
          let doc := Writer.render f anonymized_text in
          let new_file_name := Writer.new_file_name f file in
          let output_path := Py.path_join output_folder new_file_name in
          match save env output_path doc with
          | Raised e => (evs, Raised e)
          | Returned _ =>
              (evs ++ [EvSave output_path doc],
               Returned (new_file_name, unique_id))
          end
      end
  end.

(** The record appended for a file: by the last statement of the
    [try] block, or by the [except Exception] handler. *)
Definition record_of (idx : nat) (input_file_path : string)
  : MappingRecord :=
  let file := Py.basename input_file_path in
  match (try_file idx input_file_path).2 with
  | Returned (new_file_name, unique_id) =>
      success_record file new_file_name unique_id
  | Raised e => error_record file e
  end.

(** One iteration of the loop: [try], [except Exception], progress. *)
Definition process_file (idx : nat) (input_file_path : string)
    (st : run_state) : run_state :=
  let st1 := foldl (record_event idx) st (try_file idx input_file_path).1 in
  set_progress (S idx) (append (record_of idx input_file_path) st1).

(** [for idx, input_file_path in enumerate(supported_files)], from
    index [idx] on. *)
Fixpoint process_from (idx : nat) (files : list string) (st : run_state)
  : run_state :=
  match files with
  | [] => st
  | input_file_path :: rest =>
      process_from (S idx) rest (process_file idx input_file_path st)
  end.

Definition process_all (files : list string) : run_state :=
  process_from 0%nat files initial.

End Run.

(** The report: its path and its rows under the header
    [Original File Name, Anonymized File Name, UUID]. *)
Record report := {
  csv_file_path : string;
  report_rows : list MappingRecord
}.

(** The block "Save mappings" after the loop: no report for an empty
    mapping; otherwise [mappings_df.to_csv], which is under no [try]: its
    exception leaves [onAnonymizeButton]. *)
Definition write_report (env : environment) (csv_path : string)
    (rows : list MappingRecord) : outcome (option report) :=
  match rows with
  | [] => Returned None
  | _ =>
      _ ← to_csv env csv_path rows;
      Returned (Some {| csv_file_path := csv_path; report_rows := rows |})
  end.

(** How a press of the button ends. [Done]: the loop ran over
    [supported_files] and left [st]; [rep] tells what became of the
    report: written, not written, or the exception of [to_csv]. *)
Inductive run_result : Type :=
  | InputRequired
  | NoOptionsSelected
  | NoFilesFound
  | Done (supported_files : list string) (st : run_state)
         (rep : outcome (option report)).

Record settings := {
  input_folder : string;
  output_folder_of : string;
  entities_of : list string;
  method_of : string;
  threshold_of : Q
}.

(** [onAnonymizeButton], once the dependencies are importable and the two
    Presidio engines are built (they are the [analyze] and [anonymize] of
    the environment). *)
Definition onAnonymizeButton (env : environment) (cfg : settings)
  : run_result :=
  if negb (Py.truthy (input_folder cfg)) then InputRequired
  else if negb (Py.truthy (output_folder_of cfg)) then InputRequired
  else match entities_of cfg with
  | [] => NoOptionsSelected
  | _ =>
      let csv_path := Py.path_join (output_folder_of cfg)
                                   "file_mappings.csv" in
      let supported_files := discover (os_walk env (input_folder cfg)) in
      match supported_files with
      | [] => NoFilesFound
      | _ =>
          let st := process_all env (output_folder_of cfg)
                      (entities_of cfg) (method_of cfg) (threshold_of cfg)
                      supported_files in
          Done supported_files st
            (write_report env csv_path (file_mappings st))
      end
  end.

End Batch.

(** ** Conditions on a run, and the design document's wording *)

(** The file names a directory walk yields are names of directory entries:
    they contain no path separator. *)
Definition walk_ok (walk : list (string * list string)) : bool :=
  forallb (fun '(_, files) => forallb no_slash files) walk.

(** The extraction step of a file raises [msg]. *)
Definition extraction_raises (env : environment) (path msg : string) : Prop :=
  Extractor.extract (python env) (Batch.file_ext_of path)
    (read_file env path) = Raised msg.

(** The writing step of a file raises [msg]: the text was extracted, the
    Policy Engine returned, and saving the rendered document raises. *)
Definition writing_raises (env : environment) (output_folder : string)
    (entities : list string) (method : string) (threshold : Q)
    (path msg : string) : Prop :=
  exists full_text f,
    Extractor.extract (python env) (Batch.file_ext_of path)
      (read_file env path)
    = Returned full_text
    /\ format_of_ext (Batch.file_ext_of path) = Some f
    /\ save env (Batch.output_path_of output_folder f path)
         (Writer.render f
            (Policy.anonymize_text_presidio env full_text entities method
               threshold).1)
       = Raised msg.

(** The detection collaborator raises on [text], or it returns and the
    transformation collaborator raises. *)
Definition collaborator_raises (env : environment) (text : string)
    (entities : list string) (method : string) (threshold : Q) : Prop :=
  (exists e, analyze env text entities threshold = Raised e)
  \/ (exists results e,
        analyze env text entities threshold = Returned results
        /\ anonymize env text results
             (Policy.operators_arg (Policy.build_operators method entities))
           = Raised e).

(** The number of times the [operators] dictionary was built in a run. *)
Definition is_operators (e : nat * event) : bool :=
  match e.2 with
  | EvOperators _ _ => true
  | _ => false
  end.

Definition plans_built (tr : list (nat * event)) : nat :=
  length (List.filter is_operators tr).

(** The loop body builds the [operators] dictionary for a file when the
    text of the file was extracted and the detection returned. *)
Definition reaches_plan (env : environment) (entities : list string)
    (threshold : Q) (path : string) : bool :=
  match Extractor.extract (python env) (Batch.file_ext_of path)
          (read_file env path) with
  | Returned full_text =>
      match analyze env full_text entities threshold with
      | Returned _ => true
      | Raised _ => false
      end
  | Raised _ => false
  end.

(** The events of the Policy Engine in a trace: everything but a save. *)
Definition is_engine_call (e : nat * event) : bool :=
  match e.2 with
  | EvSave _ _ => false
  | _ => true
  end.









Definition concat_str (l : list string) : string :=
  foldr String.app EmptyString l.

(** A line that the [.csv] writer keeps: [line.strip()] is not empty. *)
Definition not_blank (line : string) : bool := Py.truthy (Py.strip line).




Definition no_cr (s : string) : bool := Py.all_chars (is_not "013") s.

Module Spec.

(** The extraction of a fixed-layout document in the words of the design
    document: page by page, the text layer of the page, and for a page
    without one the tables of that same page; a page where both fail
    contributes nothing. *)
Definition page_tables (page : pdf_page) : string :=
  match extract_tables page with
  | Returned tables => Extractor.tables_text tables
  | Raised _ => EmptyString
  end.

Definition page_text (page : pdf_page) : string :=
  match extract_text page with
  | Returned text =>
      if Extractor.opt_truthy text then Extractor.opt_str text +:+ nl
      else page_tables page
  | Raised _ => page_tables page
  end.

Definition pdf_text (pages : list pdf_page) : string :=
  foldl (fun full_text page => full_text +:+ page_text page)
        EmptyString pages.

End Spec.

(** ** Sample environments *)

Module Sample.

Definition unreadable (why : string) : source_file :=
  {| as_docx := Raised why; as_txt := Raised why; as_pdf := Raised why;
     as_csv := Raised why; as_xml := Raised why; as_odt := Raised why |}.

Definition txt_file (stored : string) : source_file :=
  {| as_docx := Raised "not a docx file"; as_txt := Returned stored;
     as_pdf := Raised "not a pdf file"; as_csv := Returned [[stored]];
     as_xml := Raised "not well-formed"; as_odt := Raised "not an odt file" |}.

Definition digit (n : nat) : string :=
  String (ascii_of_nat (48 + n mod 10)) EmptyString.

(** An environment with a fixed walk and file contents; the recognizer
    finds nothing or is down, the transformer returns the text with a
    mark in front, saving fails at the paths of [save_error], and the
    report can be written. *)
Definition env_of (walk : list (string * list string))
    (read : string -> source_file) (recognizer_up : bool)
    (save_error : string -> option string) : environment :=
  {| python := {| frames_left := 900;
                  recursion_error := "maximum recursion depth exceeded" |};
     os_walk := fun _ => walk;
     read_file := read;
     uuid4 := fun n => "uuid-" +:+ digit n;
     analyze := fun _ _ _ =>
       if recognizer_up then Returned [] else Raised "recognizer is down";
     anonymize := fun text _ _ => Returned ("<anonymized>" +:+ text);
     save := fun path _ =>
       match save_error path with
       | Some e => Raised e
       | None => Returned ()
       end;
     to_csv := fun _ _ => Returned () |}.

Definition settings_of (method : string) : Batch.settings :=
  {| Batch.input_folder := "/in";
     Batch.output_folder_of := "/out";
     Batch.entities_of := ["PERSON"; "PHONE_NUMBER"];
     Batch.method_of := method;
     Batch.threshold_of := 1 # 2 |}.

(** Three text files, the second one unreadable. *)
Definition three_files : list (string * list string) :=
  [("/in", ["a.txt"; "b.txt"; "c.txt"])].

Definition read_three (path : string) : source_file :=
  if String.eqb path "/in/b.txt"
  then unreadable "'utf-8' codec can't decode byte 0xff"
  else txt_file ("content of " +:+ path).

Definition env_three : environment :=
  env_of three_files read_three true (fun _ => None).

Definition paths_three : list string :=
  ["/in/a.txt"; "/in/b.txt"; "/in/c.txt"].

Definition run (env : environment) (method : string) (files : list string)
  : Batch.run_state :=
  Batch.process_all env "/out" ["PERSON"; "PHONE_NUMBER"] method (1 # 2)
                    files.

Definition report_of (st : Batch.run_state)
  : outcome (option Batch.report) :=
  Returned (Some {| Batch.csv_file_path := "/out/file_mappings.csv";
                    Batch.report_rows := Batch.file_mappings st |}).

(** The same with a recognizer that raises. *)
Definition env_recognizer_down : environment :=
  env_of three_files read_three false (fun _ => None).

(** Two files of the same name in two subdirectories. *)
Definition same_name : list (string * list string) :=
  [("/in/a", ["note.txt"]); ("/in/b", ["note.txt"])].

Definition env_same_name : environment :=
  env_of same_name (fun path => txt_file ("content of " +:+ path)) true
         (fun _ => None).

(** A file whose name is only an extension, and one whose name holds its
    extension twice. *)
Definition env_dotfile : environment :=
  env_of [("/in", [".txt"])] (fun path => txt_file "hidden") true
         (fun _ => None).

Definition env_twice : environment :=
  env_of [("/in", ["scan.txt.txt"])] (fun path => txt_file "scan") true
         (fun _ => None).

(** Two lines with an empty line between them, and a text with a
    carriage return. *)
Definition apart : string := "a" +:+ nl +:+ nl +:+ "b".

Definition with_cr : string := "a" +:+ String "013" "b".


End Sample.

(** ** The widget in front of the run *)

Module Widget.

(** The table of [setup]: entity type, description, checked by default.
    [entityCheckboxes] holds one check box per row, under the entity type,
    in this order. *)
Definition entities : list (string * string * bool) :=
  [("PERSON", "Names (patients, doctors)", true);
   ("PHONE_NUMBER", "Phone Numbers", true);
   ("EMAIL_ADDRESS", "Email Addresses", true);
   ("DATE_TIME", "Dates and Times", true);
   ("LOCATION", "Addresses and Locations", true);
   ("US_SSN", "Social Security Numbers", true);
   ("MEDICAL_LICENSE", "Medical License Numbers", true);
   ("US_DRIVER_LICENSE", "Driver's License Numbers", false);
   ("CREDIT_CARD", "Credit Card Numbers", false);
   ("US_BANK_NUMBER", "Bank Account Numbers", false);
   ("IP_ADDRESS", "IP Addresses", false);
   ("URL", "URLs/Websites", false)].

Definition entity_types : list string := map (fun row => row.1.1) entities.

(** What the user has set when the button is pressed: the two paths,
    [isChecked()] of the check box of each entity type, [currentData] of
    the method box and the value of the slider. *)
Record state := {
  inputDirectory : string;
  outputDirectory : string;
  isChecked : string -> bool;
  currentData : string;
  sliderValue : Q
}.


(** [[entity for entity, checkbox in self.entityCheckboxes.items()
      if checkbox.isChecked()]]. *)
Definition selected_entities (w : state) : list string :=
  List.filter (isChecked w) entity_types.

Definition settings_of (w : state) : Batch.settings :=
  {| Batch.input_folder := inputDirectory w;
     Batch.output_folder_of := outputDirectory w;
     Batch.entities_of := selected_entities w;
     Batch.method_of := currentData w;
     Batch.threshold_of := sliderValue w |}.


End Widget.

(** ** Measures used in the statements *)

(** The number of newlines of a text. *)
Fixpoint count_nl (s : string) : nat :=
  match s with
  | EmptyString => 0%nat
  | String c r => ((if Ascii.eqb c "010" then 1 else 0) + count_nl r)%nat
  end.

Definition no_nl (s : string) : bool := Py.all_chars (is_not "010") s.

Definition no_dot (s : string) : bool := Py.all_chars (is_not ".") s.

(** The text of the text nodes of an ODF paragraph. *)
Definition paragraph_text (paragraph : list odt_node) : string :=
  concat_str (map (fun node => match node with
                               | TextNode data => data
                               | OtherNode => EmptyString
                               end) paragraph).

(** What a successful output name ends in. *)
Definition marked_ext (f : format) : string :=
  "_anonymized" +:+ match f with
                    | Odt => ".txt"
                    | _ => ext_of_format f
                    end.

Definition is_save (ev : event) : bool :=
  match ev with
  | EvSave _ _ => true
  | _ => false
  end.

Definition nonempty {A} (l : list A) : bool :=
  match l with
  | [] => false
  | _ => true
  end.

(** Some text or tail in the tree is a non-empty string. *)
Fixpoint has_text (e : element) : bool :=
  match e with
  | Element text children tail =>
      Extractor.opt_truthy text
      || existsb (fun child =>
                    has_text child
                    || match child with
                       | Element _ _ child_tail =>
                           Extractor.opt_truthy child_tail
                       end) children
  end.

(** A text that is empty ([b] false), or ends in a space ([b] true). *)
Definition shape (b : bool) (s : string) : Prop :=
  if b then exists r, s = r +:+ " " else s = "".

(** A run over one [.pdf] that no reader can open. *)
Definition env_broken_pdf : environment :=
  Sample.env_of [("/in", ["scan.pdf"])]
                (fun _ => Sample.unreadable "No /Root object") true
                (fun _ => None).

(** A run over one [.xml] nested two deep, under an interpreter that
    allows one more call only. *)
Definition env_shallow : environment :=
  {| python := {| frames_left := 1;
                  recursion_error := "maximum recursion depth exceeded" |};
     os_walk := fun _ => [("/in", ["deep.xml"])];
     read_file := fun _ =>
       {| as_docx := Raised "not a docx file";
          as_txt := Returned "<a><b>x</b></a>";
          as_pdf := Raised "not a pdf file";
          as_csv := Returned [["<a><b>x</b></a>"]];
          as_xml := Returned (Element None [Element (Some "x") [] None] None);
          as_odt := Raised "not an odt file" |};
     uuid4 := uuid4 Sample.env_three;
     analyze := analyze Sample.env_three;
     anonymize := anonymize Sample.env_three;
     save := save Sample.env_three;
     to_csv := to_csv Sample.env_three |}.

(** The three text files again, with an output folder that does not
    exist: nothing can be saved there, nor the report. *)
Definition env_no_folder : environment :=
  {| python := python Sample.env_three;
     os_walk := os_walk Sample.env_three;
     read_file := read_file Sample.env_three;
     uuid4 := uuid4 Sample.env_three;
     analyze := analyze Sample.env_three;
     anonymize := anonymize Sample.env_three;
     save := fun _ _ => Raised "[Errno 2] No such file or directory";
     to_csv := fun _ _ =>
       Raised "Cannot save file into a non-existent directory: '/out'" |}.


(** ** The string functions on examples *)

Example splitext_plain : Py.splitext "note.txt" = ("note", ".txt").
Proof. reflexivity. Qed.

Example splitext_hidden : Py.splitext ".txt" = (".txt", "").
Proof. reflexivity. Qed.

Example splitext_dots : Py.splitext "..txt" = ("..txt", "").
Proof. reflexivity. Qed.

Example splitext_last_dot : Py.splitext "a.tar.gz" = ("a.tar", ".gz").
Proof. reflexivity. Qed.

Example splitext_in_directory : Py.splitext "/in/v1.2/readme" = ("/in/v1.2/readme", "").
Proof. reflexivity. Qed.

Example basename_nested : Py.basename "/in/sub/note.txt" = "note.txt".
Proof. reflexivity. Qed.

Example path_join_plain : Py.path_join "/out" "f.txt" = "/out/f.txt".
Proof. reflexivity. Qed.

Example path_join_slash : Py.path_join "/out/" "f.txt" = "/out/f.txt".
Proof. reflexivity. Qed.

Example replace_all : Py.replace "a.txt.txt" ".txt" "_X.txt" = "a_X.txt_X.txt".
Proof. reflexivity. Qed.

Example replace_no_overlap : Py.replace "aaa" "aa" "b" = "ba".
Proof. reflexivity. Qed.

Example split_nl_empty_line : Py.split_nl Sample.apart = ["a"; ""; "b"].
Proof. reflexivity. Qed.

Example split_nl_empty : Py.split_nl "" = [""].
Proof. reflexivity. Qed.

Example split_ws_runs : Py.split_ws "  ab  c d " = ["ab"; "c"; "d"].
Proof. reflexivity. Qed.

Example strip_both : Py.strip "  a b  " = "a b".
Proof. reflexivity. Qed.

Example lower_ext : Py.lower ".TxT" = ".txt".
Proof. reflexivity. Qed.

Example endswith_case : Py.endswith "report.TXT" ".txt" = false.
Proof. reflexivity. Qed.

Example lock_file_skipped : Batch.selected "~$draft.docx" = false.
Proof. reflexivity. Qed.

Example xml_text_in_document_order :
  Extractor.extract_text_from_xml
    (Element (Some "a") [Element (Some "b") [] (Some "c");
                         Element None [] None] (Some "ignored"))
  = "a b c ".
Proof. reflexivity. Qed.

(** One unreadable file in a batch of three: three rows, the second an
    error row, the two other files produced. *)
Example three_files_one_unreadable :
  Batch.file_mappings (Sample.run Sample.env_three "replace" Sample.paths_three)
  = [{| original_file_name := "a.txt";
        anonymized_file_name := "a_anonymized.txt";
        uuid_field := "uuid-0" |};
     {| original_file_name := "b.txt";
        anonymized_file_name := "ERROR";
        uuid_field := "Error: 'utf-8' codec can't decode byte 0xff" |};
     {| original_file_name := "c.txt";
        anonymized_file_name := "c_anonymized.txt";
        uuid_field := "uuid-2" |}]
  /\ dom (Batch.outputs
            (Sample.run Sample.env_three "replace" Sample.paths_three))
     = {[ "/out/a_anonymized.txt"; "/out/c_anonymized.txt" ]}.
Proof. split; vm_compute; reflexivity. Qed.

(** A tree nested deeper than the interpreter allows: an error row. *)
Example deep_xml_is_an_error_row :
  Batch.file_mappings (Sample.run env_shallow "replace" ["/in/deep.xml"])
  = [{| original_file_name := "deep.xml";
        anonymized_file_name := "ERROR";
        uuid_field := "Error: maximum recursion depth exceeded" |}].
Proof. vm_compute. reflexivity. Qed.

(** No output folder: three error rows, and the exception of [to_csv]
    ends the run without a report. *)
Example missing_output_folder :
  Batch.onAnonymizeButton env_no_folder (Sample.settings_of "replace")
  = Batch.Done Sample.paths_three
      (Sample.run env_no_folder "replace" Sample.paths_three)
      (Raised "Cannot save file into a non-existent directory: '/out'")
  /\ map anonymized_file_name
         (Batch.file_mappings
            (Sample.run env_no_folder "replace" Sample.paths_three))
     = ["ERROR"; "ERROR"; "ERROR"].
Proof. split; vm_compute; reflexivity. Qed.

(** No supported file: the run ends early, without a report. *)
Example nothing_to_do :
  Batch.onAnonymizeButton
    (Sample.env_of [("/in", ["notes.md"; "~$a.docx"; "IMG.PNG"])]
                   (fun _ => Sample.unreadable "unused") true (fun _ => None))
    (Sample.settings_of "replace")
  = Batch.NoFilesFound.
Proof. reflexivity. Qed.

(** ** Facts about the string functions *)

Section StringFacts.

Implicit Types (s t : string) (c d : ascii).

Lemma app_cons c s t : String c s +:+ t = String c (s +:+ t).
Proof. reflexivity. Qed.

Lemma app_empty_r s : s +:+ "" = s.
Proof. induction s as [|c s IH]; [done|]. by rewrite app_cons, IH. Qed.

Lemma app_assoc_str s t u : (s +:+ t) +:+ u = s +:+ (t +:+ u).
Proof. induction s as [|c s IH]; [done|]. by rewrite !app_cons, IH. Qed.

Lemma app_cancel_l s t u : s +:+ t = s +:+ u -> t = u.
Proof.
  induction s as [|c s IH]; [done|]. rewrite !app_cons. intros [= H]. auto.
Qed.

Lemma all_chars_app f s t :
  Py.all_chars f (s +:+ t) = Py.all_chars f s && Py.all_chars f t.
Proof.
  induction s as [|c s IH]; [done|].
  rewrite app_cons. simpl. by rewrite IH, andb_assoc.
Qed.

(** [rfind] returns -1 exactly when the character does not occur, and
    otherwise an index counted from the starting position. *)
Lemma rfind_from_spec c s i :
  0 <= i ->
  if Py.all_chars (is_not c) s then Py.rfind_from i c s = -1
  else i <= Py.rfind_from i c s
       /\ Py.rfind_from i c s - i = Py.rfind_from 0 c s.
Proof.
  revert i. induction s as [|d s IH]; intros i Hi; [done|].
  simpl. pose proof (IH (i + 1) ltac:(lia)) as H1.
  pose proof (IH (0 + 1) ltac:(lia)) as H0. unfold is_not at 1.
  destruct (Py.all_chars (is_not c) s).
  - rewrite H1, H0. simpl. destruct (Ascii.eqb d c); simpl; lia.
  - rewrite andb_false_r.
    destruct H1 as [H1 H1'], H0 as [H0 H0'].
    destruct (0 <=? Py.rfind_from (i + 1) c s) eqn:E1;
      [|apply Z.leb_gt in E1; lia].
    destruct (0 <=? Py.rfind_from (0 + 1) c s) eqn:E0;
      [|apply Z.leb_gt in E0; lia].
    lia.
Qed.

Lemma rfind_absent c s :
  Py.all_chars (is_not c) s = true -> Py.rfind c s = -1.
Proof.
  intros H. pose proof (rfind_from_spec c s 0 ltac:(lia)) as S.
  by rewrite H in S.
Qed.

Lemma rfind_present c s :
  Py.all_chars (is_not c) s = false -> 0 <= Py.rfind c s.
Proof.
  intros H. pose proof (rfind_from_spec c s 0 ltac:(lia)) as S.
  rewrite H in S. unfold Py.rfind. lia.
Qed.

Lemma basename_cons d s :
  Py.basename (String d s)
  = if Py.all_chars (is_not "/") s
    then if Ascii.eqb d "/" then s else String d s
    else Py.basename s.
Proof.
  unfold Py.basename, Py.rfind. simpl Py.rfind_from.
  pose proof (rfind_from_spec "/" s (0 + 1) ltac:(lia)) as H1.
  destruct (Py.all_chars (is_not "/") s) eqn:E.
  - rewrite H1. simpl. by destruct (Ascii.eqb d "/").
  - destruct H1 as [H1 H1'].
    destruct (0 <=? Py.rfind_from (0 + 1) "/" s) eqn:E1;
      [|apply Z.leb_gt in E1; lia].
    rewrite <- H1'.
    replace (Z.to_nat (Py.rfind_from (0 + 1) "/" s + 1))
      with (S (Z.to_nat (Py.rfind_from (0 + 1) "/" s - (0 + 1) + 1))) by lia.
    done.
Qed.

Lemma basename_no_slash p : no_slash (Py.basename p) = true.
Proof.
  induction p as [|d s IH]; [done|].
  rewrite basename_cons. destruct (Py.all_chars (is_not "/") s) eqn:E; [|done].
  destruct (Ascii.eqb d "/") eqn:Ed; [done|].
  unfold no_slash. simpl. unfold is_not at 1. by rewrite Ed, E.
Qed.

Lemma basename_id s : no_slash s = true -> Py.basename s = s.
Proof.
  intros H. unfold Py.basename. by rewrite (rfind_absent _ _ H).
Qed.

Lemma basename_after_slash a s :
  no_slash s = true -> Py.basename (a +:+ "/" +:+ s) = s.
Proof.
  intros H. induction a as [|d a IH].
  - change ("" +:+ "/" +:+ s) with (String "/" s).
    rewrite basename_cons. unfold no_slash in H. by rewrite H.
  - rewrite app_cons, basename_cons, all_chars_app.
    change ("/" +:+ s) with (String "/" s). simpl.
    by rewrite andb_false_r.
Qed.

Lemma take_drop_str n s : Py.take_str n s +:+ Py.drop_str n s = s.
Proof.
  revert s. induction n as [|n IH]; intros [|c s]; try done.
  simpl. by rewrite app_cons, IH.
Qed.

Lemma endswith_split s p :
  Py.endswith s p = true -> exists a, s = a +:+ p.
Proof.
  unfold Py.endswith. intros [_ H]%andb_true_iff.
  apply String.eqb_eq in H.
  exists (Py.take_str (Py.len s - Py.len p) s).
  rewrite <- (take_drop_str (Py.len s - Py.len p) s) at 1. by rewrite H.
Qed.

Lemma no_slash_startswith s : no_slash s = true -> Py.startswith s "/" = false.
Proof.
  destruct s as [|c s]; [done|]. unfold no_slash. simpl.
  unfold is_not at 1. intros [Hc _]%andb_true_iff.
  rewrite Ascii.eqb_sym. by destruct (Ascii.eqb c "/").
Qed.

(** [basename(join(root, file)) = file] for a file name of a directory. *)
Lemma basename_path_join root file :
  no_slash file = true -> Py.basename (Py.path_join root file) = file.
Proof.
  intros H. unfold Py.path_join. rewrite (no_slash_startswith _ H).
  destruct (String.eqb root "") eqn:E; simpl.
  - apply String.eqb_eq in E. subst. by apply basename_id.
  - destruct (Py.endswith root "/") eqn:Es.
    + apply endswith_split in Es as [a ->].
      rewrite app_assoc_str. by apply basename_after_slash.
    + by apply basename_after_slash.
Qed.

(** Two names that do not start with a slash are joined to one folder at
    different paths. *)
Lemma path_join_inj a s t :
  Py.startswith s "/" = false -> Py.startswith t "/" = false ->
  Py.path_join a s = Py.path_join a t -> s = t.
Proof.
  unfold Py.path_join. intros -> ->.
  destruct (String.eqb a "" || Py.endswith a "/").
  - apply app_cancel_l.
  - intros H%app_cancel_l. by apply app_cancel_l in H.
Qed.

End StringFacts.

(** ** How the state of a run evolves *)

Section RunFacts.

Context (env : environment) (output_folder : string)
        (selected_entities : list string) (anonymization_method : string)
        (score_threshold : Q).

Abbreviation try_file :=
  (Batch.try_file env output_folder selected_entities anonymization_method
     score_threshold).
Abbreviation record_of :=
  (Batch.record_of env output_folder selected_entities anonymization_method
     score_threshold).
Abbreviation process_file :=
  (Batch.process_file env output_folder selected_entities
     anonymization_method score_threshold).
Abbreviation process_from :=
  (Batch.process_from env output_folder selected_entities
     anonymization_method score_threshold).
Abbreviation process_all :=
  (Batch.process_all env output_folder selected_entities
     anonymization_method score_threshold).

Lemma record_events_mappings idx evs st :
  Batch.file_mappings (foldl (Batch.record_event idx) st evs)
  = Batch.file_mappings st.
Proof.
  revert st. induction evs as [|ev evs IH]; intros st; [done|].
  simpl. by rewrite IH.
Qed.

Lemma record_events_trace idx evs st :
  Batch.trace (foldl (Batch.record_event idx) st evs)
  = Batch.trace st ++ map (pair idx) evs.
Proof.
  revert st. induction evs as [|ev evs IH]; intros st; simpl.
  - by rewrite app_nil_r.
  - rewrite IH. simpl. by rewrite <- app_assoc.
Qed.

Lemma record_events_outputs idx evs st :
  Batch.outputs (foldl (Batch.record_event idx) st evs)
  = foldl Batch.save_effect (Batch.outputs st) evs.
Proof.
  revert st. induction evs as [|ev evs IH]; intros st; [done|].
  simpl. rewrite IH. by destruct ev.
Qed.

Lemma process_file_mappings idx path st :
  Batch.file_mappings (process_file idx path st)
  = Batch.file_mappings st ++ [record_of idx path].
Proof.
  unfold Batch.process_file. simpl. by rewrite record_events_mappings.
Qed.

Lemma process_file_trace idx path st :
  Batch.trace (process_file idx path st)
  = Batch.trace st ++ map (pair idx) (try_file idx path).1.
Proof.
  unfold Batch.process_file. simpl. by rewrite record_events_trace.
Qed.

Lemma process_file_outputs idx path st :
  Batch.outputs (process_file idx path st)
  = foldl Batch.save_effect (Batch.outputs st) (try_file idx path).1.
Proof.
  unfold Batch.process_file. simpl. by rewrite record_events_outputs.
Qed.

(** The loop appends one record per file, each computed from that file
    alone, in the order of the list. *)
Lemma process_from_mappings files idx st :
  Batch.file_mappings (process_from idx files st)
  = Batch.file_mappings st
    ++ imap (fun j path => record_of (idx + j) path) files.
Proof.
  revert idx st. induction files as [|path files IH]; intros idx st; simpl.
  - by rewrite app_nil_r.
  - rewrite IH, process_file_mappings, <- app_assoc. simpl.
    rewrite Nat.add_0_r. do 2 f_equal.
    apply imap_ext. intros j p _. simpl. f_equal. lia.
Qed.

Lemma process_from_trace files idx st :
  Batch.trace (process_from idx files st)
  = Batch.trace st
    ++ concat (imap (fun j path =>
                       map (pair (idx + j)%nat) (try_file (idx + j) path).1)
                    files).
Proof.
  revert idx st. induction files as [|path files IH]; intros idx st; simpl.
  - by rewrite app_nil_r.
  - rewrite IH, process_file_trace, <- app_assoc.
    rewrite Nat.add_0_r. do 3 f_equal.
    apply imap_ext. intros j p _. simpl.
    by replace (idx + S j)%nat with (S idx + j)%nat by lia.
Qed.


Lemma process_all_mappings files :
  Batch.file_mappings (process_all files) = imap record_of files.
Proof. unfold Batch.process_all. by rewrite process_from_mappings. Qed.

Lemma process_all_lookup files i path :
  files !! i = Some path ->
  Batch.file_mappings (process_all files) !! i = Some (record_of i path).
Proof.
  intros H. rewrite process_all_mappings, list_lookup_imap, H. done.
Qed.

Lemma record_of_original idx path :
  original_file_name (record_of idx path) = Py.basename path.
Proof.
  unfold Batch.record_of.
  destruct (try_file idx path).2 as [[? ?]|?]; done.
Qed.

End RunFacts.


(** ** The shape of a finished run *)

Lemma run_done_inv env cfg files st rep :
  Batch.onAnonymizeButton env cfg = Batch.Done files st rep ->
  files = Batch.discover (os_walk env (Batch.input_folder cfg))
  /\ files <> []
  /\ st = Batch.process_all env (Batch.output_folder_of cfg)
            (Batch.entities_of cfg) (Batch.method_of cfg)
            (Batch.threshold_of cfg) files
  /\ rep = Batch.write_report env
             (Py.path_join (Batch.output_folder_of cfg) "file_mappings.csv")
             (Batch.file_mappings st).
Proof.
  unfold Batch.onAnonymizeButton.
  destruct (negb (Py.truthy (Batch.input_folder cfg))); [done|].
  destruct (negb (Py.truthy (Batch.output_folder_of cfg))); [done|].
  destruct (Batch.entities_of cfg) as [|e es] eqn:He; [done|].
  destruct (Batch.discover _) as [|p ps] eqn:Hd; [done|].
  by intros [= <- <- <-].
Qed.

Lemma run_reaches_done env cfg :
  Py.truthy (Batch.input_folder cfg) = true ->
  Py.truthy (Batch.output_folder_of cfg) = true ->
  Batch.entities_of cfg <> [] ->
  Batch.discover (os_walk env (Batch.input_folder cfg)) <> [] ->
  exists st rep,
    Batch.onAnonymizeButton env cfg
    = Batch.Done (Batch.discover (os_walk env (Batch.input_folder cfg)))
                 st rep.
Proof.
  intros Hi Ho He Hd. unfold Batch.onAnonymizeButton. rewrite Hi, Ho. simpl.
  destruct (Batch.entities_of cfg) as [|e es]; [done|].
  destruct (Batch.discover _) as [|p ps] eqn:E; [done|]. eauto.
Qed.

(** ** Failure isolation (C1) and the mapping invariant (C2) *)

Section Isolation.

Context (env : environment) (cfg : Batch.settings).

Abbreviation out := (Batch.output_folder_of cfg).
Abbreviation ents := (Batch.entities_of cfg).
Abbreviation meth := (Batch.method_of cfg).
Abbreviation thr := (Batch.threshold_of cfg).




(** C2. A run with at least one discovered file ends with exactly one
    record per discovered file, in discovery order: the original names of
    the records are the base names of the discovered paths, one for one;
    and these records are what is handed to the writer of the report. *)
Theorem C2_one_record_per_discovered_file :
  Py.truthy (Batch.input_folder cfg) = true ->
  Py.truthy out = true ->
  ents <> [] ->
  Batch.discover (os_walk env (Batch.input_folder cfg)) <> [] ->
  exists st rep,
    Batch.onAnonymizeButton env cfg
    = Batch.Done (Batch.discover (os_walk env (Batch.input_folder cfg)))
                 st rep
    /\ length (Batch.file_mappings st)
       = length (Batch.discover (os_walk env (Batch.input_folder cfg)))
    /\ map original_file_name (Batch.file_mappings st)
       = map Py.basename
             (Batch.discover (os_walk env (Batch.input_folder cfg)))
    /\ rep = Batch.write_report env (Py.path_join out "file_mappings.csv")
               (Batch.file_mappings st)
    /\ forall r, rep = Returned (Some r) ->
                 Batch.report_rows r = Batch.file_mappings st.
Proof.
  intros Hi Ho He Hd.
  destruct (run_reaches_done env cfg Hi Ho He Hd) as (st & rep & Hrun).
  exists st, rep. split; [done|].
  apply run_done_inv in Hrun as (_ & _ & -> & ->).
  rewrite process_all_mappings. split_and!.
  - by rewrite length_imap.
  - set (files := Batch.discover _). clearbody files.
    apply list_eq. intros k.
    rewrite !list_lookup_fmap, list_lookup_imap.
    destruct (files !! k); simpl; [|done].
    by rewrite record_of_original.
  - done.
  - intros r. unfold Batch.write_report.
    destruct (imap _ _); [done|].
    destruct (to_csv env _ _); simpl; [|done]. by intros [= <-].
Qed.

End Isolation.


Lemma C2_witness :
  exists st rep,
    Batch.onAnonymizeButton Sample.env_three (Sample.settings_of "replace")
    = Batch.Done Sample.paths_three st rep
    /\ length (Batch.file_mappings st) = 3%nat
    /\ map original_file_name (Batch.file_mappings st)
       = ["a.txt"; "b.txt"; "c.txt"]
    /\ rep = Batch.write_report Sample.env_three "/out/file_mappings.csv"
               (Batch.file_mappings st)
    /\ forall r, rep = Returned (Some r) ->
                 Batch.report_rows r = Batch.file_mappings st.
Proof.
  apply (C2_one_record_per_discovered_file Sample.env_three
           (Sample.settings_of "replace")).
  - reflexivity.
  - reflexivity.
  - simpl. discriminate.
  - vm_compute. discriminate.
Defined.

(** ** The fallback of the Policy Engine (C3) *)

Lemma anonymize_text_fallback env text entities method threshold :
  collaborator_raises env text entities method threshold ->
  (Policy.anonymize_text_presidio env text entities method threshold).1
  = text.
Proof.
  unfold Policy.anonymize_text_presidio.
  intros [[e ->]|(results & e & -> & ->)]; done.
Qed.

(** C3. When the detection or the transformation collaborator raises on
    the text extracted from a file, [anonymize_text_presidio] returns that
    text unchanged instead of raising; the orchestrator then renders and
    saves that very text, and (the save returning) records the file as a
    success: the output name derived from the file name and the
    identifier generated for this file, not an "ERROR" entry. *)
Theorem C3_collaborator_failure_passes_text_through
    env cfg files st rep i path full_text f :
  Batch.onAnonymizeButton env cfg = Batch.Done files st rep ->
  files !! i = Some path ->
  Extractor.extract (python env) (Batch.file_ext_of path)
    (read_file env path)
  = Returned full_text ->
  collaborator_raises env full_text (Batch.entities_of cfg)
    (Batch.method_of cfg) (Batch.threshold_of cfg) ->
  format_of_ext (Batch.file_ext_of path) = Some f ->
  save env (Batch.output_path_of (Batch.output_folder_of cfg) f path)
       (Writer.render f full_text) = Returned () ->
  (Policy.anonymize_text_presidio env full_text (Batch.entities_of cfg)
     (Batch.method_of cfg) (Batch.threshold_of cfg)).1 = full_text
  /\ Batch.file_mappings st !! i
     = Some {| original_file_name := Py.basename path;
               anonymized_file_name :=
                 Writer.new_file_name f (Py.basename path);
               uuid_field := uuid4 env i |}
  /\ (i, EvSave (Batch.output_path_of (Batch.output_folder_of cfg) f path)
                (Writer.render f full_text)) ∈ Batch.trace st.
Proof.
  intros (_ & _ & -> & _)%run_done_inv Hi Hx Hc Hf Hs.
  pose proof (anonymize_text_fallback _ _ _ _ _ Hc) as Hfall.
  assert (Htry : Batch.try_file env (Batch.output_folder_of cfg)
                   (Batch.entities_of cfg) (Batch.method_of cfg)
                   (Batch.threshold_of cfg) i path
                 = ((Policy.anonymize_text_presidio env full_text
                       (Batch.entities_of cfg) (Batch.method_of cfg)
                       (Batch.threshold_of cfg)).2
                    ++ [EvSave (Batch.output_path_of
                                  (Batch.output_folder_of cfg) f path)
                               (Writer.render f full_text)],
                    Returned (Writer.new_file_name f (Py.basename path),
                              uuid4 env i))).
  { unfold Batch.try_file, Batch.file_ext_of, Batch.output_path_of in *.
    rewrite Hx, Hf.
    destruct (Policy.anonymize_text_presidio _ _ _ _ _) as [t evs].
    simpl in Hfall. subst t. by rewrite Hs. }
  split_and!; [done| |].
  - rewrite (process_all_lookup _ _ _ _ _ _ _ _ Hi).
    unfold Batch.record_of. by rewrite Htry.
  - unfold Batch.process_all. rewrite process_from_trace. simpl.
    apply list_elem_of_In, in_concat.
    eexists. split.
    + apply list_elem_of_In, list_elem_of_lookup. exists i.
      rewrite list_lookup_imap, Hi. simpl. reflexivity.
    + rewrite Htry. simpl. apply in_map, in_app_iff. right. by left.
Qed.

Lemma C3_witness :
  (Policy.anonymize_text_presidio Sample.env_recognizer_down
     "content of /in/a.txt" ["PERSON"; "PHONE_NUMBER"] "replace" (1 # 2)).1
  = "content of /in/a.txt"
  /\ Batch.file_mappings
       (Sample.run Sample.env_recognizer_down "replace" Sample.paths_three)
       !! 0%nat
     = Some {| original_file_name := "a.txt";
               anonymized_file_name := "a_anonymized.txt";
               uuid_field := "uuid-0" |}.
Proof.
  pose proof (C3_collaborator_failure_passes_text_through
                Sample.env_recognizer_down (Sample.settings_of "replace")
                Sample.paths_three
                (Sample.run Sample.env_recognizer_down "replace"
                            Sample.paths_three)
                (Sample.report_of
                   (Sample.run Sample.env_recognizer_down "replace"
                               Sample.paths_three))
                0%nat "/in/a.txt" "content of /in/a.txt" Txt) as H.
  destruct H as (H1 & H2 & _).
  - vm_compute. reflexivity.
  - reflexivity.
  - vm_compute. reflexivity.
  - left. eexists. vm_compute. reflexivity.
  - reflexivity.
  - reflexivity.
  - split; [exact H1 | exact H2].
Defined.

(** ** Extraction of fixed-layout documents (C6) *)





(** ** Discovery *)

Lemma discover_selected walk path :
  walk_ok walk = true ->
  path ∈ Batch.discover walk ->
  Batch.selected (Py.basename path) = true.
Proof.
  unfold walk_ok, Batch.discover. intros Hok Hin.
  apply list_elem_of_In, in_flat_map in Hin as ([root names] & Hw & Hin).
  apply list_elem_of_In, list_elem_of_fmap in Hin as (file & -> & Hf).
  apply list_elem_of_filter in Hf as [Hsel Hf].
  rewrite forallb_forall in Hok. specialize (Hok _ Hw). simpl in Hok.
  rewrite forallb_forall in Hok.
  apply list_elem_of_In in Hf.
  by rewrite (basename_path_join _ _ (Hok _ Hf)).
Qed.

(** ** What a file leaves in the trace and in the output folder *)

Section Effects.

Context (env : environment) (output_folder : string)
        (selected_entities : list string) (anonymization_method : string)
        (score_threshold : Q).

Abbreviation try_file :=
  (Batch.try_file env output_folder selected_entities anonymization_method
     score_threshold).
Abbreviation process_from :=
  (Batch.process_from env output_folder selected_entities
     anonymization_method score_threshold).
Abbreviation process_all :=
  (Batch.process_all env output_folder selected_entities
     anonymization_method score_threshold).

Lemma engine_events_no_save text o doc :
  EvSave o doc
  ∉ (Policy.anonymize_text_presidio env text selected_entities
       anonymization_method score_threshold).2.
Proof.
  unfold Policy.anonymize_text_presidio.
  destruct (analyze env _ _ _) as [results|e]; simpl.
  - destruct (anonymize env _ _ _); simpl;
      rewrite !not_elem_of_cons; split_and!; try done; apply not_elem_of_nil.
  - rewrite !not_elem_of_cons; split_and!; try done; apply not_elem_of_nil.
Qed.

(** The events of a file: the calls of the Policy Engine, then at most one
    save, which goes with a success and is at the path derived from the
    base name of the file. *)
Lemma try_file_events idx path :
  (exists engine,
     (try_file idx path).1 = engine /\ (forall o doc, EvSave o doc ∉ engine)
     /\ exists e, (try_file idx path).2 = Raised e)
  \/ (exists engine f doc,
        (try_file idx path).1
        = engine ++ [EvSave (Batch.output_path_of output_folder f path) doc]
        /\ (forall o d, EvSave o d ∉ engine)
        /\ format_of_ext (Batch.file_ext_of path) = Some f
        /\ (try_file idx path).2
           = Returned (Writer.new_file_name f (Py.basename path),
                       uuid4 env idx)).
Proof.
  unfold Batch.try_file, Batch.file_ext_of, Batch.output_path_of.
  destruct (Extractor.extract _ _ _) as [full_text|e]; simpl.
  - pose proof (engine_events_no_save full_text) as Hno.
    destruct (Policy.anonymize_text_presidio _ _ _ _ _) as [t evs].
    simpl in Hno.
    destruct (format_of_ext _) as [f|]; simpl.
    + destruct (save env _ _) as [[]|e]; simpl.
      * right. exists evs, f, (Writer.render f t). done.
      * left. exists evs. eauto.
    + left. exists evs. eauto.
  - left. exists []. split_and!; eauto using not_elem_of_nil.
Qed.

Lemma trace_elem files i ev :
  (i, ev) ∈ Batch.trace (process_all files)
  <-> exists path, files !! i = Some path /\ ev ∈ (try_file i path).1.
Proof.
  unfold Batch.process_all. rewrite process_from_trace. simpl.
  rewrite list_elem_of_In, in_concat. split.
  - intros (l & Hl & Hin).
    apply list_elem_of_In, elem_of_lookup_imap in Hl as (j & path & -> & Hj).
    apply list_elem_of_In, list_elem_of_fmap in Hin as (ev' & [= -> ->] & Hev).
    eauto.
  - intros (path & Hi & Hev). eexists. split.
    + apply list_elem_of_In, elem_of_lookup_imap. eauto.
    + apply list_elem_of_In, list_elem_of_fmap_2. exact Hev.
Qed.

Lemma save_effect_engine m evs :
  (forall o doc, EvSave o doc ∉ evs) -> foldl Batch.save_effect m evs = m.
Proof.
  revert m. induction evs as [|ev evs IH]; intros m Hno; [done|].
  simpl. rewrite IH.
  - destruct ev; try done. destruct (Hno output_path doc). by left.
  - intros o d Hin. apply (Hno o d). by right.
Qed.




(** Whatever the output folder holds was saved by a discovered file. *)
Lemma outputs_origin files idx st o doc :
  Batch.outputs (process_from idx files st) !! o = Some doc ->
  Batch.outputs st !! o = Some doc
  \/ exists k path, files !! k = Some path
                    /\ EvSave o doc ∈ (try_file (idx + k) path).1.
Proof.
  revert idx st. induction files as [|p files IH]; intros idx st H; [by left|].
  simpl in H. apply IH in H as [H|(k & path & Hk & Hev)].
  - rewrite process_file_outputs in H.
    destruct (try_file_events idx p)
      as [(engine & He & Hno & _)|(engine & f & d & He & Hno & _)].
    + rewrite He, (save_effect_engine _ _ Hno) in H. by left.
    + rewrite He, foldl_app, (save_effect_engine _ _ Hno) in H. simpl in H.
      destruct (decide (Batch.output_path_of output_folder f p = o)) as [<-|Hne].
      * rewrite lookup_insert_eq in H. injection H as ->.
        right. exists 0%nat, p. split; [done|].
        rewrite Nat.add_0_r, He. apply elem_of_app. right. by left.
      * rewrite lookup_insert_ne in H by done. by left.
  - right. exists (S k), path. split; [done|].
    by replace (idx + S k)%nat with (S idx + k)%nat by lia.
Qed.

End Effects.

(** ** Why a [try] block is left by an exception *)

Lemma extract_returned_format py file_ext src text :
  Extractor.extract py file_ext src = Returned text ->
  exists f, format_of_ext file_ext = Some f.
Proof.
  unfold Extractor.extract. destruct (format_of_ext file_ext); [eauto|done].
Qed.

(** The exception that leaves the [try] block of a file is one of the
    extraction or one of the writing. *)
Lemma raised_cause env out ents meth thr i path e :
  (Batch.try_file env out ents meth thr i path).2 = Raised e ->
  extraction_raises env path e
  \/ writing_raises env out ents meth thr path e.
Proof.
  unfold extraction_raises, writing_raises, Batch.try_file,
    Batch.file_ext_of, Batch.output_path_of.
  destruct (Extractor.extract _ _ _) as [full_text|e'] eqn:Hx;
    [|intros [= ->]; by left].
  destruct (extract_returned_format _ _ _ _ Hx) as [f Hf].
  destruct (Policy.anonymize_text_presidio env full_text ents meth thr)
    as [t evs] eqn:Ha.
  rewrite Hf. destruct (save env _ _) as [[]|e'] eqn:Hs; [done|].
  intros [= ->]. right. exists full_text, f. by rewrite Ha.
Qed.



(** ** Unsupported and unselected files (C7, C10) *)

Lemma records_are_selected env cfg files st rep r :
  walk_ok (os_walk env (Batch.input_folder cfg)) = true ->
  Batch.onAnonymizeButton env cfg = Batch.Done files st rep ->
  r ∈ Batch.file_mappings st ->
  exists path, path ∈ files
               /\ original_file_name r = Py.basename path
               /\ Batch.selected (Py.basename path) = true.
Proof.
  intros Hok (-> & _ & -> & _)%run_done_inv Hr.
  rewrite process_all_mappings in Hr.
  apply elem_of_lookup_imap in Hr as (i & path & -> & Hi).
  exists path. rewrite record_of_original.
  assert (path ∈ Batch.discover (os_walk env (Batch.input_folder cfg)))
    by (apply list_elem_of_lookup; eauto).
  eauto using discover_selected.
Qed.

(** C7, as the code has it. A file that the test of the discovery loop
    does not select (its name does not end, case for case, in one of the
    six suffixes, or starts with "~$") produces no record. A file that
    the test selects but whose extension, as [os.path.splitext] gives it,
    is none of the six is not skipped: its record is the error record
    with "Error: Unsupported file type: " and that extension, and it
    never reaches the Policy Engine (nothing in the trace bears its
    index). *)
Theorem C7_unsupported_extension_is_an_error_record env cfg files st rep :
  walk_ok (os_walk env (Batch.input_folder cfg)) = true ->
  Batch.onAnonymizeButton env cfg = Batch.Done files st rep ->
  (forall file r,
     Batch.selected file = false ->
     r ∈ Batch.file_mappings st -> original_file_name r <> file)
  /\ (forall i path,
        files !! i = Some path ->
        format_of_ext (Batch.file_ext_of path) = None ->
        Batch.file_mappings st !! i
        = Some {| original_file_name := Py.basename path;
                  anonymized_file_name := "ERROR";
                  uuid_field := "Error: " +:+ "Unsupported file type: "
                                +:+ Batch.file_ext_of path |}
        /\ forall ev, (i, ev) ∉ Batch.trace st).
Proof.
  intros Hok Hrun. split.
  - intros file r Hsel Hr Heq.
    destruct (records_are_selected _ _ _ _ _ _ Hok Hrun Hr)
      as (path & _ & Ho & Hs).
    congruence.
  - apply run_done_inv in Hrun as (_ & _ & -> & _).
    intros i path Hi Hnone.
    assert (Htry : Batch.try_file env (Batch.output_folder_of cfg)
                     (Batch.entities_of cfg) (Batch.method_of cfg)
                     (Batch.threshold_of cfg) i path
                   = ([], Raised ("Unsupported file type: "
                                  +:+ Batch.file_ext_of path))).
    { unfold Batch.try_file, Extractor.extract.
      unfold Batch.file_ext_of in Hnone |- *. by rewrite Hnone. }
    split.
    + rewrite (process_all_lookup _ _ _ _ _ _ _ _ Hi).
      unfold Batch.record_of. by rewrite Htry.
    + intros ev (path' & Hi' & Hev)%trace_elem.
      rewrite Hi in Hi'. injection Hi' as <-.
      rewrite Htry in Hev. by apply not_elem_of_nil in Hev.
Qed.

Lemma C7_witness :
  Batch.file_mappings (Sample.run Sample.env_dotfile "replace" ["/in/.txt"])
    !! 0%nat
  = Some {| original_file_name := ".txt";
            anonymized_file_name := "ERROR";
            uuid_field := "Error: Unsupported file type: " |}.
Proof.
  refine (proj1 (proj2 (C7_unsupported_extension_is_an_error_record
                          Sample.env_dotfile (Sample.settings_of "replace")
                          ["/in/.txt"]
                          (Sample.run Sample.env_dotfile "replace"
                                      ["/in/.txt"])
                          (Sample.report_of
                             (Sample.run Sample.env_dotfile "replace"
                                         ["/in/.txt"])) _ _)
                       0%nat "/in/.txt" _ _)).
  - reflexivity.
  - vm_compute. reflexivity.
  - reflexivity.
  - reflexivity.
Defined.

(** A file named ".txt" is not skipped: discovery selects it, its
    extension is empty and so none of the six, and the run gives it an
    error record. *)
Lemma C7_counterexample :
  Batch.selected ".txt" = true
  /\ format_of_ext (Batch.file_ext_of "/in/.txt") = None
  /\ Batch.onAnonymizeButton Sample.env_dotfile (Sample.settings_of "replace")
     = Batch.Done ["/in/.txt"]
         (Sample.run Sample.env_dotfile "replace" ["/in/.txt"])
         (Sample.report_of
            (Sample.run Sample.env_dotfile "replace" ["/in/.txt"]))
  /\ Batch.file_mappings
       (Sample.run Sample.env_dotfile "replace" ["/in/.txt"])
     = [{| original_file_name := ".txt";
           anonymized_file_name := "ERROR";
           uuid_field := "Error: Unsupported file type: " |}].
Proof. split_and!; vm_compute; reflexivity. Qed.

Lemma not_endswith_not_selected file :
  Py.endswith_any file Batch.supported_suffixes = false ->
  Batch.selected file = false.
Proof. unfold Batch.selected. by intros ->. Qed.

(** C10. Discovery compares the end of the file name with the six
    lower-case suffixes case for case: "report.TXT" and "scan.PDF" are
    not selected, although the extension the loop body would dispatch on,
    being lower-cased, is a supported one. A file whose name ends in none
    of the six suffixes is never among the discovered files, has no
    record, and every document in the output folder was saved for a
    discovered file, which is another one. *)
Theorem C10_discovery_is_case_sensitive env cfg files st rep file :
  walk_ok (os_walk env (Batch.input_folder cfg)) = true ->
  Batch.onAnonymizeButton env cfg = Batch.Done files st rep ->
  Py.endswith_any file Batch.supported_suffixes = false ->
  (Batch.selected "report.TXT" = false
   /\ Batch.selected "scan.PDF" = false
   /\ format_of_ext (Batch.file_ext_of "report.TXT") = Some Txt
   /\ format_of_ext (Batch.file_ext_of "scan.PDF") = Some Pdf)
  /\ (forall path, path ∈ files -> Py.basename path <> file)
  /\ (forall r, r ∈ Batch.file_mappings st -> original_file_name r <> file)
  /\ (forall o doc,
        Batch.outputs st !! o = Some doc ->
        exists i path f,
          files !! i = Some path
          /\ Py.basename path <> file
          /\ o = Batch.output_path_of (Batch.output_folder_of cfg) f path
          /\ (i, EvSave o doc) ∈ Batch.trace st).
Proof.
  intros Hok Hrun Hend.
  pose proof (not_endswith_not_selected _ Hend) as Hsel.
  assert (Hfiles : forall path, path ∈ files -> Py.basename path <> file).
  { apply run_done_inv in Hrun as (-> & _).
    intros path Hin Heq.
    pose proof (discover_selected _ _ Hok Hin). congruence. }
  split_and!; try done.
  - intros r Hr Heq.
    destruct (records_are_selected _ _ _ _ _ _ Hok Hrun Hr)
      as (path & _ & Ho & Hs).
    congruence.
  - apply run_done_inv in Hrun as (_ & _ & -> & _).
    intros o doc Ho. unfold Batch.process_all in Ho.
    apply outputs_origin in Ho as [Ho|(k & path & Hk & Hev)]; [done|].
    simpl in Hev.
    destruct (try_file_events env (Batch.output_folder_of cfg)
                (Batch.entities_of cfg) (Batch.method_of cfg)
                (Batch.threshold_of cfg) k path)
      as [(engine & He & Hno & _)|(engine & f & d & He & Hno & _)].
    + rewrite He in Hev. by destruct (Hno o doc).
    + exists k, path, f. split_and!.
      * done.
      * apply Hfiles, list_elem_of_lookup. eauto.
      * rewrite He in Hev.
        apply elem_of_app in Hev as [Hev|Hev]; [by destruct (Hno o doc)|].
        by apply list_elem_of_singleton in Hev as [= -> ->].
      * apply trace_elem. eauto.
Qed.

Lemma C10_witness :
  Forall (fun r => original_file_name r <> "report.TXT")
         (Batch.file_mappings
            (Sample.run Sample.env_three "replace" Sample.paths_three)).
Proof.
  apply Forall_forall.
  refine (proj1 (proj2 (proj2 (C10_discovery_is_case_sensitive
                                 Sample.env_three
                                 (Sample.settings_of "replace")
                                 Sample.paths_three
                                 (Sample.run Sample.env_three "replace"
                                             Sample.paths_three)
                                 (Sample.report_of
                                    (Sample.run Sample.env_three "replace"
                                                Sample.paths_three))
                                 "report.TXT" _ _ _)))).
  - reflexivity.
  - vm_compute. reflexivity.
  - reflexivity.
Defined.

(** ** Output paths (C9) *)

Lemma basename_not_rooted path : Py.startswith (Py.basename path) "/" = false.
Proof. apply no_slash_startswith, basename_no_slash. Qed.

Lemma replace_not_rooted s old new :
  Py.startswith s "/" = false -> Py.startswith new "/" = false ->
  new <> "" ->
  Py.startswith (Py.replace s old new) "/" = false.
Proof.
  intros Hs Hn Hne. destruct s as [|c s]; [done|].
  unfold Py.replace. simpl.
  destruct (Py.startswith (String c s) old).
  - destruct new as [|d new]; [done|]. by rewrite app_cons.
  - done.
Qed.

Lemma new_file_name_not_rooted f path :
  Py.startswith (Writer.new_file_name f (Py.basename path)) "/" = false.
Proof.
  destruct f; simpl; apply replace_not_rooted;
    auto using basename_not_rooted.
Qed.




(** ** The transformation plan (C8) *)

Lemma plans_built_app tr1 tr2 :
  plans_built (tr1 ++ tr2) = (plans_built tr1 + plans_built tr2)%nat.
Proof. unfold plans_built. by rewrite List.filter_app, length_app. Qed.

Lemma plans_built_file env out ents meth thr idx path :
  plans_built (map (pair idx) (Batch.try_file env out ents meth thr idx path).1)
  = if reaches_plan env ents thr path then 1%nat else 0%nat.
Proof.
  unfold reaches_plan, Batch.try_file, Batch.file_ext_of,
    Policy.anonymize_text_presidio.
  destruct (Extractor.extract _ _ _) as [full_text|e]; [|done].
  destruct (analyze env _ _ _) as [results|e];
    [destruct (anonymize env _ _ _) as [t|e]|];
    (destruct (format_of_ext _) as [f|]; [|done]);
    by destruct (save env _ _) as [[]|e'].
Qed.

Lemma plans_built_from env out ents meth thr files idx st :
  plans_built (Batch.trace (Batch.process_from env out ents meth thr idx
                              files st))
  = (plans_built (Batch.trace st)
     + length (List.filter (reaches_plan env ents thr) files))%nat.
Proof.
  revert idx st. induction files as [|path files IH]; intros idx st; simpl.
  - lia.
  - rewrite IH, process_file_trace, plans_built_app, plans_built_file.
    destruct (reaches_plan env ents thr path); simpl; lia.
Qed.

Lemma operators_events env ents meth thr text ev :
  ev ∈ (Policy.anonymize_text_presidio env text ents meth thr).2 ->
  match ev with
  | EvOperators method ops =>
      method = meth /\ ops = Policy.build_operators meth ents
  | EvAnonymize _ ops =>
      ops = Policy.operators_arg (Policy.build_operators meth ents)
  | EvAnalyze _ entities threshold => entities = ents /\ threshold = thr
  | EvSave _ _ => False
  end.
Proof.
  unfold Policy.anonymize_text_presidio.
  destruct (analyze env _ _ _) as [results|e];
    [destruct (anonymize env _ _ _) as [t|e]|]; simpl;
    rewrite ?elem_of_cons, elem_of_nil; intros H;
    repeat destruct H as [H|H]; try done; by subst.
Qed.

Lemma engine_events_of_file env out ents meth thr idx path ev :
  ev ∈ (Batch.try_file env out ents meth thr idx path).1 ->
  (exists o doc, ev = EvSave o doc)
  \/ exists text,
       ev ∈ (Policy.anonymize_text_presidio env text ents meth thr).2.
Proof.
  unfold Batch.try_file.
  destruct (Extractor.extract _ _ _) as [full_text|e]; simpl;
    [|by intros ?%elem_of_nil].
  destruct (Policy.anonymize_text_presidio env full_text ents meth thr)
    as [t evs] eqn:E.
  assert (Hevs : evs = (Policy.anonymize_text_presidio env full_text ents
                          meth thr).2) by (by rewrite E).
  destruct (format_of_ext _) as [f|]; simpl.
  - destruct (save env _ _) as [[]|e]; simpl.
    + intros [H|H]%elem_of_app.
      * right. exists full_text. by rewrite <- Hevs.
      * apply list_elem_of_singleton in H. left. eauto.
    + intros H. right. exists full_text. by rewrite <- Hevs.
  - intros H. right. exists full_text. by rewrite <- Hevs.
Qed.

(** C8, as the code has it. The [operators] dictionary is built inside
    [anonymize_text_presidio], which the loop calls for each file: in a
    run it is built once for each file whose text was extracted and whose
    detection returned, not once per run. Each time it is built from the
    method and the entities of the run alone, and so is the same for all
    files: empty for "replace" (the transformation collaborator is then
    given [None] and applies its default), and for the other methods one
    descriptor per enabled entity: "redact", "hash", or "mask" with the
    masking character "*", 100 characters to mask and [from_end] false. *)
Theorem C8_plan_is_rebuilt_for_each_file env cfg files st rep :
  Batch.onAnonymizeButton env cfg = Batch.Done files st rep ->
  plans_built (Batch.trace st)
  = length (List.filter (reaches_plan env (Batch.entities_of cfg)
                           (Batch.threshold_of cfg)) files)
  /\ (forall i method ops,
        (i, EvOperators method ops) ∈ Batch.trace st ->
        method = Batch.method_of cfg
        /\ ops = Policy.build_operators (Batch.method_of cfg)
                   (Batch.entities_of cfg))
  /\ (forall i text ops,
        (i, EvAnonymize text ops) ∈ Batch.trace st ->
        ops = Policy.operators_arg
                (Policy.build_operators (Batch.method_of cfg)
                   (Batch.entities_of cfg)))
  /\ (forall entities,
        Policy.build_operators "replace" entities = []
        /\ Policy.operators_arg [] = None
        /\ Policy.build_operators "redact" entities
           = map (fun entity =>
                    (entity, {| operator_name := "redact"; params := [] |}))
                 entities
        /\ Policy.build_operators "hash" entities
           = map (fun entity =>
                    (entity, {| operator_name := "hash"; params := [] |}))
                 entities
        /\ Policy.build_operators "mask" entities
           = map (fun entity =>
                    (entity,
                     {| operator_name := "mask";
                        params := [("masking_char", PStr "*");
                                   ("chars_to_mask", PInt 100);
                                   ("from_end", PBool false)] |}))
                 entities).
Proof.
  intros (_ & _ & -> & _)%run_done_inv. split_and!.
  - unfold Batch.process_all. by rewrite plans_built_from.
  - intros i method ops (path & _ & Hev)%trace_elem.
    apply engine_events_of_file in Hev as [(o & doc & [=])|[text Hev]].
    by apply operators_events in Hev.
  - intros i text ops (path & _ & Hev)%trace_elem.
    apply engine_events_of_file in Hev as [(o & doc & [=])|[text' Hev]].
    by apply operators_events in Hev.
  - intros entities. split_and!; reflexivity.
Qed.

Lemma C8_witness :
  plans_built (Batch.trace (Sample.run Sample.env_three "mask"
                                       Sample.paths_three))
  = length (List.filter (reaches_plan Sample.env_three
                           ["PERSON"; "PHONE_NUMBER"] (1 # 2))
                        Sample.paths_three).
Proof.
  refine (proj1 (C8_plan_is_rebuilt_for_each_file Sample.env_three
                   (Sample.settings_of "mask") Sample.paths_three
                   (Sample.run Sample.env_three "mask" Sample.paths_three)
                   (Sample.report_of
                      (Sample.run Sample.env_three "mask"
                                  Sample.paths_three)) _)).
  vm_compute. reflexivity.
Defined.

(** In a run over three files of which two reach the Policy Engine, the
    dictionary of operators is built twice, once for each of the two
    files, not once. *)
Lemma C8_counterexample :
  plans_built (Batch.trace (Sample.run Sample.env_three "mask"
                                       Sample.paths_three)) = 2%nat
  /\ List.filter is_operators
       (Batch.trace (Sample.run Sample.env_three "mask" Sample.paths_three))
     = [(0%nat, EvOperators "mask"
                  (Policy.build_operators "mask" ["PERSON"; "PHONE_NUMBER"]));
        (2%nat, EvOperators "mask"
                  (Policy.build_operators "mask" ["PERSON"; "PHONE_NUMBER"]))].
Proof. split; vm_compute; reflexivity. Qed.

(** ** Output names (C5) *)

Lemma startswith_refl s : Py.startswith s s = true.
Proof.
  induction s as [|c s IH]; [done|]. simpl. by rewrite Ascii.eqb_refl, IH.
Qed.

Lemma replace_from_skip k old new s :
  (Py.len s <= k)%nat -> Py.replace_from k old new s = "".
Proof.
  revert k. induction s as [|c s IH]; intros k Hk; [done|].
  simpl in *. destruct k as [|k]; [lia|]. apply IH. lia.
Qed.

(** When [old] occurs in a name at its end only, [replace] rewrites that
    occurrence and nothing else. *)
Lemma replace_at_end stem old new :
  old <> "" ->
  (forall k, (k < Py.len stem)%nat ->
             Py.startswith (Py.drop_str k (stem +:+ old)) old = false) ->
  Py.replace (stem +:+ old) old new = stem +:+ new.
Proof.
  intros Hold. unfold Py.replace.
  induction stem as [|c stem IH]; intros Hocc.
  - destruct old as [|d old]; [done|].
    change ("" +:+ String d old) with (String d old).
    cbn [Py.replace_from]. rewrite startswith_refl.
    rewrite replace_from_skip by (simpl; lia). by rewrite app_empty_r.
  - rewrite !app_cons. cbn [Py.replace_from].
    pose proof (Hocc 0%nat ltac:(simpl; lia)) as H0.
    rewrite app_cons in H0. cbn [Py.drop_str] in H0. rewrite H0.
    f_equal. apply IH. intros k Hk.
    apply (Hocc (S k)). simpl. lia.
Qed.

(** X15. The output name is the stem, the marker and the extension when
    the extension occurs in the file name at its end only. *)
Lemma new_file_name_single_occurrence f stem :
  (forall k, (k < Py.len stem)%nat ->
             Py.startswith (Py.drop_str k (stem +:+ ext_of_format f))
                           (ext_of_format f) = false) ->
  Writer.new_file_name f (stem +:+ ext_of_format f)
  = stem +:+ "_anonymized"
    +:+ match f with Odt => ".txt" | _ => ext_of_format f end.
Proof.
  intros H. destruct f; simpl; by rewrite replace_at_end.
Qed.

(** C5 does not hold of the code on a file name that holds its extension
    twice. "scan.txt.txt" is discovered, its extension is ".txt" and its
    stem "scan.txt", so the marker before the final extension gives
    "scan.txt_anonymized.txt"; but [str.replace] rewrites every occurrence
    of ".txt", and the file is saved and recorded as
    "scan_anonymized.txt_anonymized.txt". *)
Theorem C5_every_occurrence_of_the_extension_is_replaced :
  Batch.selected "scan.txt.txt" = true
  /\ Py.splitext "scan.txt.txt" = ("scan.txt", ".txt")
  /\ Writer.new_file_name Txt "scan.txt.txt"
     = "scan_anonymized.txt_anonymized.txt"
  /\ Writer.new_file_name Txt "scan.txt.txt"
     <> "scan.txt" +:+ "_anonymized" +:+ ".txt"
  /\ Batch.file_mappings
       (Sample.run Sample.env_twice "replace" ["/in/scan.txt.txt"])
     = [{| original_file_name := "scan.txt.txt";
           anonymized_file_name := "scan_anonymized.txt_anonymized.txt";
           uuid_field := "uuid-0" |}].
Proof. split_and!; try (vm_compute; reflexivity). discriminate. Qed.

(** ** Writing a document and reading it back (C4) *)

Section RoundTrip.

Implicit Types (s t w line : string) (c d : ascii).

Lemma split_nl_not_nil s : Py.split_nl s <> [].
Proof.
  destruct s as [|c s]; [done|]. simpl.
  destruct (Ascii.eqb c "010"); [done|]. by destruct (Py.split_nl s).
Qed.

Lemma join_cons sep w l :
  l <> [] -> Py.join sep (w :: l) = w +:+ sep +:+ Py.join sep l.
Proof. by destruct l. Qed.

(** ["\n".join(text.split("\n")) == text]. *)
Lemma join_split_nl s : Py.join nl (Py.split_nl s) = s.
Proof.
  induction s as [|c s IH]; [done|]. simpl.
  destruct (Ascii.eqb c "010") eqn:Ec.
  - apply Ascii.eqb_eq in Ec as ->.
    rewrite join_cons by apply split_nl_not_nil. by rewrite IH.
  - destruct (Py.split_nl s) as [|w ws] eqn:E;
      [by destruct (split_nl_not_nil s)|].
    rewrite <- IH. destruct ws as [|w' ws]; [done|].
    rewrite !join_cons by done. by rewrite app_cons.
Qed.

Lemma universal_newlines_no_cr s :
  no_cr s = true -> Py.universal_newlines s = s.
Proof.
  unfold no_cr.
  induction s as [|c s IH]; [done|]. simpl. unfold is_not at 1.
  intros [Hc Hs]%andb_true_iff.
  destruct (Ascii.eqb c "013"); [done|]. by rewrite IH.
Qed.

Lemma csv_text_from acc rows :
  foldl (fun full_text row => full_text +:+ Py.join " " row +:+ nl) acc rows
  = acc +:+ concat_str (map (fun row => Py.join " " row +:+ nl) rows).
Proof.
  revert acc. induction rows as [|row rows IH]; intros acc; simpl.
  - by rewrite app_empty_r.
  - by rewrite IH, !app_assoc_str.
Qed.

Lemma csv_text_concat rows :
  Extractor.csv_text rows
  = concat_str (map (fun row => Py.join " " row +:+ nl) rows).
Proof. unfold Extractor.csv_text. by rewrite csv_text_from. Qed.


(** A line without a newline, followed by a newline, is the first piece of
    the split. *)
Lemma split_nl_line line rest :
  Py.all_chars (is_not "010") line = true ->
  Py.split_nl (line +:+ nl +:+ rest) = line :: Py.split_nl rest.
Proof.
  induction line as [|c line IH]; intros H; [done|].
  simpl in H. apply andb_true_iff in H as [Hc H].
  rewrite app_cons. simpl. unfold is_not in Hc.
  destruct (Ascii.eqb c "010"); [done|]. by rewrite IH.
Qed.



Lemma split_ws_space c s : Py.isspace c = true -> Py.split_ws (String c s) = Py.split_ws s.
Proof. simpl. by intros ->. Qed.




Lemma split_ws_unfold c s :
  Py.split_ws (String c s)
  = if Py.isspace c then Py.split_ws s
    else match s with
         | EmptyString => [String c EmptyString]
         | String d _ =>
             if Py.isspace d then String c EmptyString :: Py.split_ws s
             else match Py.split_ws s with
                  | w :: ws => String c w :: ws
                  | [] => [String c EmptyString]
                  end
         end.
Proof. done. Qed.
















End RoundTrip.

(** ** The end of a run *)

Lemma progress_from env out ents meth thr files idx st :
  files <> [] ->
  Batch.progress (Batch.process_from env out ents meth thr idx files st)
  = (idx + length files)%nat.
Proof.
  revert idx st. induction files as [|path files IH]; intros idx st Hne;
    [done|].
  simpl. destruct files as [|path' files].
  - simpl. lia.
  - rewrite IH by done. simpl. lia.
Qed.

(** X1. When the loop runs, it ends with the progress bar at the number of
    discovered files and with one row per discovered file, and these rows
    are handed to [to_csv] for "file_mappings.csv" in the output folder:
    the branch "No valid files were processed" after the loop is never
    taken. The report is written when [to_csv] returns; when it raises,
    being under no [try], its exception leaves [onAnonymizeButton]. *)
Theorem X1_report_is_always_attempted env cfg files st rep :
  Batch.onAnonymizeButton env cfg = Batch.Done files st rep ->
  Batch.progress st = length files
  /\ Batch.file_mappings st <> []
  /\ length (Batch.file_mappings st) = length files
  /\ rep <> Returned None
  /\ (to_csv env (Py.path_join (Batch.output_folder_of cfg)
                               "file_mappings.csv")
             (Batch.file_mappings st) = Returned () ->
      rep = Returned
              (Some {| Batch.csv_file_path :=
                         Py.path_join (Batch.output_folder_of cfg)
                                      "file_mappings.csv";
                       Batch.report_rows := Batch.file_mappings st |}))
  /\ (forall e,
        to_csv env (Py.path_join (Batch.output_folder_of cfg)
                                 "file_mappings.csv")
               (Batch.file_mappings st) = Raised e ->
        rep = Raised e).
Proof.
  intros (_ & Hne & -> & ->)%run_done_inv.
  assert (Hrows : Batch.file_mappings
                    (Batch.process_all env (Batch.output_folder_of cfg)
                       (Batch.entities_of cfg) (Batch.method_of cfg)
                       (Batch.threshold_of cfg) files) <> []).
  { rewrite process_all_mappings. by destruct files. }
  split_and!.
  - unfold Batch.process_all. by rewrite progress_from.
  - done.
  - by rewrite process_all_mappings, length_imap.
  - unfold Batch.write_report.
    destruct (Batch.file_mappings _); [done|].
    by destruct (to_csv env _ _).
  - unfold Batch.write_report.
    destruct (Batch.file_mappings _); [done|]. by intros ->.
  - intros e. unfold Batch.write_report.
    destruct (Batch.file_mappings _); [done|]. by intros ->.
Qed.

Lemma X1_witness :
  Batch.progress (Sample.run Sample.env_three "replace" Sample.paths_three)
  = 3%nat.
Proof.
  refine (proj1 (X1_report_is_always_attempted Sample.env_three
                   (Sample.settings_of "replace") Sample.paths_three
                   (Sample.run Sample.env_three "replace" Sample.paths_three)
                   (Sample.report_of
                      (Sample.run Sample.env_three "replace"
                                  Sample.paths_three)) _)).
  vm_compute. reflexivity.
Defined.

(** ** The names in the report *)

Lemma basename_discover walk :
  walk_ok walk = true ->
  map Py.basename (Batch.discover walk)
  = flat_map (fun '(_, files) =>
                List.filter Batch.selected files) walk.
Proof.
  unfold walk_ok, Batch.discover.
  induction walk as [|[root files] walk IH]; [done|]. simpl.
  intros [Hfiles Hwalk]%andb_true_iff.
  rewrite map_app, IH by done. f_equal. clear IH Hwalk.
  induction files as [|file files IH]; [done|]. simpl in Hfiles.
  apply andb_true_iff in Hfiles as [Hfile Hfiles].
  rewrite filter_cons. simpl.
  destruct (Batch.selected file) eqn:Hsel.
  - rewrite decide_True by done. simpl.
    rewrite basename_path_join by done. f_equal. by apply IH.
  - rewrite decide_False by (by intros ?). by apply IH.
Qed.

(** X2. The "Original File Name" column of a run lists, in the order of
    the walk, exactly the file names of the walk that end in one of the
    six suffixes and do not start with "~$": the directory of a file
    leaves no mark in its record. *)
Theorem X2_original_names_are_the_selected_names env cfg files st rep :
  walk_ok (os_walk env (Batch.input_folder cfg)) = true ->
  Batch.onAnonymizeButton env cfg = Batch.Done files st rep ->
  map original_file_name (Batch.file_mappings st)
  = flat_map (fun '(_, names) => List.filter Batch.selected names)
             (os_walk env (Batch.input_folder cfg)).
Proof.
  intros Hok (-> & _ & -> & _)%run_done_inv.
  rewrite <- basename_discover by done.
  rewrite process_all_mappings.
  apply list_eq. intros k.
  rewrite !list_lookup_fmap, list_lookup_imap.
  destruct (Batch.discover _ !! k); simpl; [|done].
  by rewrite record_of_original.
Qed.

Lemma X2_witness :
  map original_file_name
      (Batch.file_mappings
         (Sample.run Sample.env_same_name "replace"
                     ["/in/a/note.txt"; "/in/b/note.txt"]))
  = ["note.txt"; "note.txt"].
Proof.
  refine (X2_original_names_are_the_selected_names Sample.env_same_name
            (Sample.settings_of "replace")
            ["/in/a/note.txt"; "/in/b/note.txt"]
            (Sample.run Sample.env_same_name "replace"
                        ["/in/a/note.txt"; "/in/b/note.txt"])
            (Sample.report_of
               (Sample.run Sample.env_same_name "replace"
                           ["/in/a/note.txt"; "/in/b/note.txt"])) _ _).
  - reflexivity.
  - vm_compute. reflexivity.
Defined.

(** ** Where an extraction error comes from *)



(** ** The shape of an output name *)

Section NameShape.

Implicit Types (s t a old new body : string) (c d : ascii).

Lemma len_app s t : Py.len (s +:+ t) = (Py.len s + Py.len t)%nat.
Proof.
  induction s as [|c s IH]; [done|]. rewrite app_cons. simpl in *. by rewrite IH.
Qed.

Lemma drop_app s t : Py.drop_str (Py.len s) (s +:+ t) = t.
Proof. induction s as [|c s IH]; [by destruct t|]. by rewrite app_cons. Qed.

Lemma take_app s t : Py.take_str (Py.len s) (s +:+ t) = s.
Proof.
  induction s as [|c s IH]; [by destruct t|]. rewrite app_cons. simpl.
  by rewrite IH.
Qed.

Lemma endswith_app s t : Py.endswith (s +:+ t) t = true.
Proof.
  unfold Py.endswith. rewrite len_app.
  replace (Py.len s + Py.len t - Py.len t)%nat with (Py.len s) by lia.
  rewrite drop_app, String.eqb_refl, andb_true_r.
  apply Nat.leb_le. lia.
Qed.

Lemma startswith_split s old :
  Py.startswith s old = true -> exists rest, s = old +:+ rest.
Proof.
  revert s. induction old as [|c old IH]; intros s H.
  - by exists s.
  - destruct s as [|d s]; [done|]. simpl in H.
    apply andb_true_iff in H as [Hc H]. apply Ascii.eqb_eq in Hc as ->.
    destruct (IH _ H) as [rest ->]. by exists rest.
Qed.

(** The text before a dot holds no dot up to a position [k] only if [k]
    does not pass the dot. *)
Lemma no_dot_take_dot k t :
  no_dot (Py.take_str k (String "." t)) = true -> k = 0%nat.
Proof. by destruct k. Qed.

(** [replace] always rewrites an occurrence of an extension that ends the
    name: an extension has its only dot in front, so that no earlier
    occurrence runs into the last one. *)
Lemma replace_from_keeps_end body new a k :
  no_dot body = true ->
  no_dot (Py.take_str k (a +:+ String "." body)) = true ->
  exists r, Py.replace_from k (String "." body) new (a +:+ String "." body)
            = r +:+ new.
Proof.
  intros Hbody. revert k. induction a as [|c a IH]; intros k Hk.
  - change ("" +:+ String "." body) with (String "." body) in Hk.
    apply no_dot_take_dot in Hk as ->.
    change ("" +:+ String "." body) with (String "." body).
    cbn [Py.replace_from]. rewrite startswith_refl.
    rewrite replace_from_skip by (simpl; lia).
    exists "". by rewrite app_empty_r.
  - rewrite app_cons in Hk |- *. destruct k as [|k].
    + cbn [Py.replace_from].
      destruct (Py.startswith (String c (a +:+ String "." body))
                              (String "." body)) eqn:Hs.
      * apply startswith_split in Hs as [rest Hs].
        rewrite app_cons in Hs. injection Hs as -> Hs.
        destruct (IH (Py.len (String "." body) - 1)%nat) as [r Hr].
        { simpl. rewrite Nat.sub_0_r, Hs, take_app. done. }
        rewrite Hr. exists (new +:+ r). by rewrite app_assoc_str.
      * destruct (IH 0%nat) as [r Hr]; [done|].
        rewrite Hr. exists (String c r). by rewrite app_cons.
    + cbn [Py.replace_from]. simpl in Hk.
      apply andb_true_iff in Hk as [_ Hk]. by apply IH.
Qed.

Lemma new_file_name_keeps_end f a :
  Py.endswith (Writer.new_file_name f (a +:+ ext_of_format f)) (marked_ext f)
  = true.
Proof.
  assert (H : forall body new,
             no_dot body = true ->
             Py.endswith (Py.replace (a +:+ String "." body)
                                     (String "." body) new) new = true).
  { intros body new Hb. unfold Py.replace.
    destruct (replace_from_keeps_end body new a 0 Hb eq_refl) as [r ->].
    apply endswith_app. }
  destruct f;
    [apply (H "docx")|apply (H "txt")|apply (H "pdf")|apply (H "csv")
    |apply (H "xml")|apply (H "odt" "_anonymized.txt")]; reflexivity.
Qed.

(** The index of the dot of an extension that ends a name. *)
Lemma rfind_cons c d s :
  Py.rfind c (String d s)
  = if Py.all_chars (is_not c) s
    then if Ascii.eqb d c then 0 else -1
    else Py.rfind c s + 1.
Proof.
  unfold Py.rfind. simpl Py.rfind_from.
  pose proof (rfind_from_spec c s (0 + 1) ltac:(lia)) as H.
  destruct (Py.all_chars (is_not c) s).
  - by rewrite H.
  - destruct H as [H1 H2].
    destruct (0 <=? Py.rfind_from (0 + 1) c s) eqn:E;
      [lia|apply Z.leb_gt in E; lia].
Qed.

Lemma rfind_last c a body :
  Py.all_chars (is_not c) body = true ->
  Py.rfind c (a +:+ String c body) = Z.of_nat (Py.len a).
Proof.
  intros Hb. induction a as [|d a IH].
  - change ("" +:+ String c body) with (String c body).
    by rewrite rfind_cons, Hb, Ascii.eqb_refl.
  - rewrite app_cons, rfind_cons, all_chars_app, IH. simpl.
    unfold is_not at 2. rewrite Ascii.eqb_refl, andb_false_r. lia.
Qed.

(** [splitext] of a name that ends in an extension gives that extension,
    or none when only dots come before it. *)
Lemma splitext_of_suffix a body :
  no_slash (a +:+ String "." body) = true ->
  no_dot body = true ->
  (Py.splitext (a +:+ String "." body)).2 = ""
  \/ (Py.splitext (a +:+ String "." body)).2 = String "." body.
Proof.
  intros Hs Hb. unfold Py.splitext.
  rewrite (rfind_absent _ _ Hs), (rfind_last _ _ _ Hb).
  destruct (-1 <? Z.of_nat (Py.len a)); [|by left].
  destruct (Py.all_chars _ _); [by left|right]. simpl.
  by rewrite Nat2Z.id, drop_app.
Qed.

Lemma selected_suffix file :
  Batch.selected file = true ->
  exists a f, file = a +:+ ext_of_format f.
Proof.
  unfold Batch.selected, Py.endswith_any, Batch.supported_suffixes.
  intros [H _]%andb_true_iff. simpl in H.
  repeat (apply orb_true_iff in H as [H|H]); try done;
    apply endswith_split in H as [a ->]; exists a;
    [by exists Docx|by exists Txt|by exists Pdf|by exists Csv
    |by exists Xml|by exists Odt].
Qed.

(** The format the loop body dispatches on is the one of the suffix
    discovery matched. *)
Lemma dispatch_agrees a f f' :
  no_slash (a +:+ ext_of_format f) = true ->
  format_of_ext (Py.lower (Py.splitext (a +:+ ext_of_format f)).2) = Some f' ->
  f' = f.
Proof.
  intros Hs.
  assert (H : forall body,
             ext_of_format f = String "." body -> no_dot body = true ->
             format_of_ext (Py.lower (String "." body)) = Some f ->
             format_of_ext (Py.lower (Py.splitext (a +:+ ext_of_format f)).2)
             = Some f' -> f' = f).
  { intros body He Hb Hf. rewrite He in Hs |- *.
    destruct (splitext_of_suffix a body Hs Hb) as [-> | ->]; [done|].
    rewrite Hf. by intros [= ->]. }
  destruct f;
    [apply (H "docx")|apply (H "txt")|apply (H "pdf")|apply (H "csv")
    |apply (H "xml")|apply (H "odt")]; reflexivity.
Qed.

End NameShape.

(** ** Successes and errors in a finished run *)

Section Outcomes.

Context (env : environment) (cfg : Batch.settings).

Abbreviation out := (Batch.output_folder_of cfg).
Abbreviation ents := (Batch.entities_of cfg).
Abbreviation meth := (Batch.method_of cfg).
Abbreviation thr := (Batch.threshold_of cfg).

Lemma discovered_name files st rep i path :
  walk_ok (os_walk env (Batch.input_folder cfg)) = true ->
  Batch.onAnonymizeButton env cfg = Batch.Done files st rep ->
  files !! i = Some path ->
  exists a f, Py.basename path = a +:+ ext_of_format f.
Proof.
  intros Hok (-> & _)%run_done_inv Hi.
  apply selected_suffix, (discover_selected _ _ Hok).
  apply list_elem_of_lookup. eauto.
Qed.

(** The name of a discovered file that the loop body dispatches to a
    format ends in the extension of that format, and the output name in
    the marker and the extension. *)
Lemma discovered_name_shape files st rep i path f :
  walk_ok (os_walk env (Batch.input_folder cfg)) = true ->
  Batch.onAnonymizeButton env cfg = Batch.Done files st rep ->
  files !! i = Some path ->
  format_of_ext (Batch.file_ext_of path) = Some f ->
  Py.endswith (Py.basename path) (ext_of_format f) = true
  /\ Py.endswith (Writer.new_file_name f (Py.basename path)) (marked_ext f)
     = true.
Proof.
  intros Hok Hrun Hi Hf.
  destruct (discovered_name _ _ _ _ _ Hok Hrun Hi) as (a & f0 & Ha).
  unfold Batch.file_ext_of in Hf. rewrite Ha in Hf |- *.
  assert (f = f0) as ->.
  { eapply dispatch_agrees; [|exact Hf]. rewrite <- Ha.
    apply basename_no_slash. }
  split; [apply endswith_app|apply new_file_name_keeps_end].
Qed.

(** X4. In a run, every document saved goes with a record whose original
    name ends in one of the six extensions and whose output name ends in
    "_anonymized" and that extension (".txt" for [.odt]); the document is
    saved under that output name in the output folder. *)
Theorem X4_output_names_end_in_the_marker files st rep i o doc :
  walk_ok (os_walk env (Batch.input_folder cfg)) = true ->
  Batch.onAnonymizeButton env cfg = Batch.Done files st rep ->
  (i, EvSave o doc) ∈ Batch.trace st ->
  exists r f,
    Batch.file_mappings st !! i = Some r
    /\ Py.endswith (original_file_name r) (ext_of_format f) = true
    /\ Py.endswith (anonymized_file_name r) (marked_ext f) = true
    /\ o = Py.path_join out (anonymized_file_name r).
Proof.
  intros Hok Hrun Hev.
  pose proof Hrun as (_ & _ & -> & _)%run_done_inv.
  apply trace_elem in Hev as (path & Hi & Hev).
  destruct (try_file_events env out ents meth thr i path)
    as [(engine & He & Hno & _)|(engine & f & d & He & Hno & Hf & Hr)].
  - rewrite He in Hev. by destruct (Hno o doc).
  - rewrite He in Hev.
    apply elem_of_app in Hev as [Hev|Hev]; [by destruct (Hno o doc)|].
    apply list_elem_of_singleton in Hev as [= -> ->].
    destruct (discovered_name_shape _ _ _ _ _ _ Hok Hrun Hi Hf) as [H1 H2].
    eexists _, f. split_and!.
    + rewrite (process_all_lookup _ _ _ _ _ _ _ _ Hi).
      unfold Batch.record_of. rewrite Hr. reflexivity.
    + done.
    + done.
    + done.
Qed.

Lemma report_name_is_no_output f s :
  Py.endswith s (marked_ext f) = true -> s <> "file_mappings.csv".
Proof. intros H ->. by destruct f. Qed.

(** X5. The report is never written over an anonymized document: no
    document of a run is saved at the path of "file_mappings.csv" in the
    output folder, whatever the names of the input files. *)
Theorem X5_report_path_is_free files st rep :
  walk_ok (os_walk env (Batch.input_folder cfg)) = true ->
  Batch.onAnonymizeButton env cfg = Batch.Done files st rep ->
  Batch.outputs st !! Py.path_join out "file_mappings.csv" = None.
Proof.
  intros Hok Hrun.
  destruct (Batch.outputs st !! _) as [doc|] eqn:E; [exfalso|done].
  pose proof Hrun as (_ & _ & Hst & _)%run_done_inv.
  rewrite Hst in E. unfold Batch.process_all in E.
  apply outputs_origin in E as [E|(k & path & Hk & Hev)]; [done|].
  simpl in Hev.
  destruct (try_file_events env out ents meth thr k path)
    as [(engine & He & Hno & _)|(engine & f & d & He & Hno & Hf & Hr)].
  - rewrite He in Hev. by destruct (Hno (Py.path_join out "file_mappings.csv") doc).
  - rewrite He in Hev.
    apply elem_of_app in Hev as [Hev|Hev]; [by destruct (Hno (Py.path_join out "file_mappings.csv") doc)|].
    apply list_elem_of_singleton in Hev as [= Hpath _].
    destruct (discovered_name_shape _ _ _ _ _ _ Hok Hrun Hk Hf) as [_ H2].
    apply (report_name_is_no_output _ _ H2).
    symmetry. eapply path_join_inj; [| |exact Hpath]; [done|].
    apply new_file_name_not_rooted.
Qed.

Lemma error_name_is_no_output f s :
  Py.endswith s (marked_ext f) = true -> s <> "ERROR".
Proof. intros H ->. by destruct f. Qed.

(** X6. An "ERROR" row of a run is never a guess: the row at the position
    of a discovered file has the output name "ERROR" only if the
    extraction or the writing of that very file raised, its third field
    is then "Error: " and the message of that exception, and no document
    was saved for that file. *)
Theorem X6_error_rows_come_from_exceptions files st rep i path r :
  walk_ok (os_walk env (Batch.input_folder cfg)) = true ->
  Batch.onAnonymizeButton env cfg = Batch.Done files st rep ->
  files !! i = Some path ->
  Batch.file_mappings st !! i = Some r ->
  anonymized_file_name r = "ERROR" ->
  exists msg,
    uuid_field r = "Error: " +:+ msg
    /\ (extraction_raises env path msg
        \/ writing_raises env out ents meth thr path msg)
    /\ forall o doc, (i, EvSave o doc) ∉ Batch.trace st.
Proof.
  intros Hok Hrun Hi Hr Hname.
  pose proof Hrun as (_ & _ & Hst & _)%run_done_inv.
  rewrite Hst, (process_all_lookup _ _ _ _ _ _ _ _ Hi) in Hr.
  injection Hr as <-. unfold Batch.record_of in Hname |- *.
  destruct (try_file_events env out ents meth thr i path)
    as [(engine & Heq & Hno & e & He)|(engine & f & d & _ & _ & Hf & Hret)].
  - rewrite He. exists e. split_and!; [done|by apply (raised_cause env out ents meth thr i)|].
    intros o doc. rewrite Hst.
    intros (path' & Hi' & Hev)%trace_elem.
    rewrite Hi in Hi'. injection Hi' as <-.
    rewrite Heq in Hev. by destruct (Hno o doc).
  - rewrite Hret in Hname. simpl in Hname.
    destruct (discovered_name_shape _ _ _ _ _ _ Hok Hrun Hi Hf) as [_ H2].
    by destruct (error_name_is_no_output _ _ H2).
Qed.

End Outcomes.

Lemma X4_witness :
  exists r f,
    Batch.file_mappings
      (Sample.run Sample.env_three "replace" Sample.paths_three) !! 2%nat
    = Some r
    /\ Py.endswith (original_file_name r) (ext_of_format f) = true
    /\ Py.endswith (anonymized_file_name r) (marked_ext f) = true
    /\ "/out/c_anonymized.txt" = Py.path_join "/out" (anonymized_file_name r).
Proof.
  refine (X4_output_names_end_in_the_marker Sample.env_three
            (Sample.settings_of "replace") Sample.paths_three
            (Sample.run Sample.env_three "replace" Sample.paths_three)
            (Sample.report_of
               (Sample.run Sample.env_three "replace" Sample.paths_three))
            2%nat "/out/c_anonymized.txt"
            (WText "<anonymized>content of /in/c.txt") _ _ _).
  - reflexivity.
  - vm_compute. reflexivity.
  - apply trace_elem. exists "/in/c.txt". split; [reflexivity|].
    apply list_elem_of_In. vm_compute. auto 10.
Defined.

Lemma X5_witness :
  Batch.outputs (Sample.run Sample.env_three "replace" Sample.paths_three)
    !! "/out/file_mappings.csv" = None.
Proof.
  refine (X5_report_path_is_free Sample.env_three
            (Sample.settings_of "replace") Sample.paths_three
            (Sample.run Sample.env_three "replace" Sample.paths_three)
            (Sample.report_of
               (Sample.run Sample.env_three "replace" Sample.paths_three))
            _ _).
  - reflexivity.
  - vm_compute. reflexivity.
Defined.

Lemma X6_witness :
  exists msg,
    "Error: 'utf-8' codec can't decode byte 0xff" = "Error: " +:+ msg
    /\ (extraction_raises Sample.env_three "/in/b.txt" msg
        \/ writing_raises Sample.env_three "/out" ["PERSON"; "PHONE_NUMBER"]
             "replace" (1 # 2) "/in/b.txt" msg)
    /\ forall o doc,
         (1%nat, EvSave o doc)
         ∉ Batch.trace (Sample.run Sample.env_three "replace"
                          Sample.paths_three).
Proof.
  refine (X6_error_rows_come_from_exceptions Sample.env_three
            (Sample.settings_of "replace") Sample.paths_three
            (Sample.run Sample.env_three "replace" Sample.paths_three)
            (Sample.report_of
               (Sample.run Sample.env_three "replace" Sample.paths_three))
            1%nat "/in/b.txt"
            {| original_file_name := "b.txt";
               anonymized_file_name := "ERROR";
               uuid_field := "Error: 'utf-8' codec can't decode byte 0xff" |}
            _ _ _ _ _).
  - reflexivity.
  - vm_compute. reflexivity.
  - reflexivity.
  - vm_compute. reflexivity.
  - reflexivity.
Defined.

(** ** The size of the output folder *)

Lemma no_saves evs :
  (forall o doc, EvSave o doc ∉ evs) -> List.filter is_save evs = [].
Proof.
  induction evs as [|ev evs IH]; intros Hno; [done|]. simpl.
  destruct ev; simpl; try (apply IH; intros o d Hin; apply (Hno o d); by right).
  destruct (Hno output_path doc). by left.
Qed.

Lemma size_save_effect (m : gmap string written_doc) evs :
  (size (foldl Batch.save_effect m evs)
   <= size m + length (List.filter is_save evs))%nat.
Proof.
  revert m. induction evs as [|ev evs IH]; intros m; simpl; [lia|].
  etrans; [apply IH|].
  destruct ev; simpl; try lia.
  rewrite map_size_insert. destruct (m !! output_path); unfold id; lia.
Qed.

Lemma saves_of_file env out ents meth thr idx path :
  (length (List.filter is_save
             (Batch.try_file env out ents meth thr idx path).1) <= 1)%nat.
Proof.
  destruct (try_file_events env out ents meth thr idx path)
    as [(engine & -> & Hno & _)|(engine & f & d & -> & Hno & _)].
  - rewrite no_saves by done. simpl. lia.
  - rewrite List.filter_app, no_saves by done. simpl. lia.
Qed.

Lemma size_outputs_from env out ents meth thr files idx st :
  (size (Batch.outputs (Batch.process_from env out ents meth thr idx files st))
   <= size (Batch.outputs st) + length files)%nat.
Proof.
  revert idx st. induction files as [|path files IH]; intros idx st; simpl;
    [lia|].
  etrans; [apply IH|]. rewrite process_file_outputs.
  pose proof (size_save_effect (Batch.outputs st)
                (Batch.try_file env out ents meth thr idx path).1).
  pose proof (saves_of_file env out ents meth thr idx path). lia.
Qed.

(** X7. A run never leaves more documents in the output folder than it
    discovered files: each file is saved at most once. *)
Theorem X7_no_more_outputs_than_files env cfg files st rep :
  Batch.onAnonymizeButton env cfg = Batch.Done files st rep ->
  (size (Batch.outputs st) <= length files)%nat.
Proof.
  intros (_ & _ & -> & _)%run_done_inv. unfold Batch.process_all.
  etrans; [apply size_outputs_from|]. simpl. rewrite map_size_empty. lia.
Qed.

Lemma X7_witness :
  (size (Batch.outputs
           (Sample.run Sample.env_same_name "replace"
                       ["/in/a/note.txt"; "/in/b/note.txt"])) <= 2)%nat.
Proof.
  refine (X7_no_more_outputs_than_files Sample.env_same_name
            (Sample.settings_of "replace")
            ["/in/a/note.txt"; "/in/b/note.txt"]
            (Sample.run Sample.env_same_name "replace"
                        ["/in/a/note.txt"; "/in/b/note.txt"])
            (Sample.report_of
               (Sample.run Sample.env_same_name "replace"
                           ["/in/a/note.txt"; "/in/b/note.txt"])) _).
  vm_compute. reflexivity.
Defined.

(** ** Paragraph documents, extracted and written *)

Lemma split_nl_one line : no_nl line = true -> Py.split_nl line = [line].
Proof.
  unfold no_nl. induction line as [|c line IH]; [done|]. simpl.
  unfold is_not at 1. intros [Hc H]%andb_true_iff.
  destruct (Ascii.eqb c "010"); [done|]. by rewrite IH.
Qed.

Lemma split_nl_join lines :
  lines <> [] -> forallb no_nl lines = true ->
  Py.split_nl (Py.join nl lines) = lines.
Proof.
  induction lines as [|line lines IH]; [done|]. intros _. simpl.
  intros [Hl Hls]%andb_true_iff.
  destruct lines as [|line' lines]; [by apply split_nl_one|].
  rewrite split_nl_line by done. f_equal. by apply IH.
Qed.

(** X8. A [.docx] whose paragraphs hold no newline is rebuilt paragraph
    for paragraph when its extracted text is written again; a [.docx]
    without any paragraph comes back with one empty paragraph. *)
Theorem X8_docx_extract_then_write paras :
  forallb no_nl paras = true ->
  Writer.render Docx (Extractor.docx_text paras)
  = WDocx (match paras with [] => [""] | _ => paras end).
Proof.
  intros H. simpl. unfold Extractor.docx_text. f_equal.
  destruct paras as [|p paras]; [done|]. by apply split_nl_join.
Qed.

Lemma X8_witness :
  Writer.render Docx (Extractor.docx_text ["Patient John Smith"; ""; "end"])
  = WDocx ["Patient John Smith"; ""; "end"].
Proof.
  apply (X8_docx_extract_then_write ["Patient John Smith"; ""; "end"]).
  reflexivity.
Defined.

Lemma split_nl_length s : length (Py.split_nl s) = S (count_nl s).
Proof.
  induction s as [|c s IH]; [done|]. simpl.
  destruct (Ascii.eqb c "010"); simpl; [by rewrite IH|].
  destruct (Py.split_nl s); simpl in *; [done|lia].
Qed.

Lemma count_nl_end a : (1 <= count_nl (a +:+ nl))%nat.
Proof.
  induction a as [|c a IH]; [simpl; lia|]. rewrite app_cons. simpl. lia.
Qed.

Lemma split_nl_end a : last (Py.split_nl (a +:+ nl)) = Some "".
Proof.
  induction a as [|c a IH]; [done|].
  rewrite app_cons. simpl.
  pose proof (split_nl_length (a +:+ nl)) as Hl.
  pose proof (count_nl_end a) as Hc.
  destruct (Py.split_nl (a +:+ nl)) as [|w [|w' ws]]; simpl in Hl; try lia.
  destruct (Ascii.eqb c "010"); by rewrite !last_cons_cons in IH |- *.
Qed.

(** X9. The [.docx] written for a text has one paragraph more than the
    text has newlines: never none, and a text that ends in a newline
    gives a last, empty paragraph. *)
Theorem X9_docx_paragraph_count text :
  exists paras,
    Writer.render Docx text = WDocx paras
    /\ length paras = S (count_nl text)
    /\ (Py.endswith text nl = true -> last paras = Some "").
Proof.
  exists (Py.split_nl text). split_and!; [done|apply split_nl_length|].
  intros [a ->]%endswith_split. apply split_nl_end.
Qed.

Lemma X9_witness :
  exists paras,
    Writer.render Docx ("a" +:+ nl +:+ "b" +:+ nl) = WDocx paras
    /\ length paras = 3%nat
    /\ last paras = Some "".
Proof.
  destruct (X9_docx_paragraph_count ("a" +:+ nl +:+ "b" +:+ nl))
    as (paras & H1 & H2 & H3).
  exists paras. split_and!; [exact H1|exact H2|].
  apply H3. reflexivity.
Defined.

(** ** OpenDocument text, extracted *)

Lemma paragraph_from acc paragraph :
  foldl (fun acc node => match node with
                         | TextNode data => acc +:+ data
                         | OtherNode => acc
                         end) acc paragraph
  = acc +:+ paragraph_text paragraph.
Proof.
  revert acc. induction paragraph as [|node paragraph IH]; intros acc.
  - by rewrite app_empty_r.
  - simpl. rewrite IH. unfold paragraph_text. simpl.
    destruct node; by rewrite ?app_assoc_str.
Qed.

Lemma odt_text_from acc paragraphs :
  foldl (fun full_text paragraph =>
           foldl (fun acc node => match node with
                                  | TextNode data => acc +:+ data
                                  | OtherNode => acc
                                  end) full_text paragraph +:+ nl)
        acc paragraphs
  = acc +:+ concat_str (map (fun p => paragraph_text p +:+ nl) paragraphs).
Proof.
  revert acc. induction paragraphs as [|p paragraphs IH]; intros acc; simpl.
  - by rewrite app_empty_r.
  - by rewrite IH, paragraph_from, !app_assoc_str.
Qed.

(** X10. The text extracted from an [.odt] has one line per paragraph, in
    the order of the document, each made of the text nodes of the
    paragraph (what lies in nested elements is left out), and it ends in a
    newline: split at the newlines it gives the paragraphs and a last
    empty piece. *)
Theorem X10_odt_one_line_per_paragraph paragraphs :
  forallb (fun p => no_nl (paragraph_text p)) paragraphs = true ->
  Py.split_nl (Extractor.odt_text paragraphs)
  = map paragraph_text paragraphs ++ [""].
Proof.
  unfold Extractor.odt_text. rewrite odt_text_from.
  change ("" +:+ ?s) with s.
  induction paragraphs as [|p paragraphs IH]; [done|]. simpl.
  intros [Hp Hps]%andb_true_iff.
  rewrite app_assoc_str, split_nl_line by done. f_equal. by apply IH.
Qed.

Lemma X10_witness :
  Py.split_nl
    (Extractor.odt_text [[TextNode "Dr "; OtherNode; TextNode "Smith"]; []])
  = ["Dr Smith"; ""; ""].
Proof.
  apply (X10_odt_one_line_per_paragraph
           [[TextNode "Dr "; OtherNode; TextNode "Smith"]; []]).
  reflexivity.
Defined.

(** ** Delimited files, extracted and written *)

Lemma split_ws_lstrip s : Py.split_ws (Py.lstrip s) = Py.split_ws s.
Proof.
  induction s as [|c s IH]; [done|]. simpl Py.lstrip.
  destruct (Py.isspace c) eqn:Hc; [|done].
  by rewrite IH, split_ws_space.
Qed.

Lemma lstrip_head s :
  Py.lstrip s = ""
  \/ exists c r, Py.lstrip s = String c r /\ Py.isspace c = false.
Proof.
  induction s as [|c s IH]; [by left|]. simpl.
  destruct (Py.isspace c) eqn:Hc; [done|]. right. eauto.
Qed.

(** A line is kept by the writer exactly when it has a cell. *)
Lemma not_blank_cells line : not_blank line = nonempty (Py.split_ws line).
Proof.
  unfold not_blank, Py.strip. rewrite <- (split_ws_lstrip line).
  destruct (lstrip_head line) as [->|(c & r & -> & Hc)]; [done|].
  rewrite split_ws_unfold, Hc. simpl. rewrite Hc.
  assert (Py.truthy (match Py.rstrip r with
                     | "" => String c ""
                     | String a s => String c (String a s)
                     end) = true) as -> by (by destruct (Py.rstrip r)).
  destruct r as [|d r]; [done|].
  destruct (Py.isspace d); [done|].
  by destruct (Py.split_ws (String d r)).
Qed.

Lemma join_cells_no_nl row :
  forallb no_nl row = true -> no_nl (Py.join " " row) = true.
Proof.
  unfold no_nl.
  induction row as [|w row IH]; [done|]. simpl.
  intros [Hw Hrow]%andb_true_iff.
  destruct row as [|w' row]; [done|].
  rewrite !all_chars_app, Hw, IH by done. done.
Qed.

(** X11. Writing again the text extracted from a [.csv] rebuilds its rows
    only up to whitespace: each row is joined by spaces and split again,
    so that a cell with blanks inside becomes several cells and an empty
    cell disappears, and a row left without any cell is dropped. *)
Theorem X11_csv_extract_then_write rows :
  forallb (forallb no_nl) rows = true ->
  Writer.render Csv (Extractor.csv_text rows)
  = WCsv (List.filter nonempty
            (map (fun row => Py.split_ws (Py.join " " row)) rows)).
Proof.
  intros H. simpl. f_equal. rewrite csv_text_concat. unfold Writer.csv_rows.
  induction rows as [|row rows IH]; [done|]. simpl in H |- *.
  apply andb_true_iff in H as [Hrow Hrows].
  rewrite app_assoc_str, split_nl_line by (by apply join_cells_no_nl).
  simpl. fold (not_blank (Py.join " " row)). rewrite not_blank_cells.
  destruct (nonempty (Py.split_ws (Py.join " " row))); simpl;
    by rewrite IH.
Qed.

Lemma X11_witness :
  Writer.render Csv
    (Extractor.csv_text [["John Smith"; ""; "555"]; [""; ""]; ["x"]])
  = WCsv [["John"; "Smith"; "555"]; ["x"]].
Proof.
  apply (X11_csv_extract_then_write
           [["John Smith"; ""; "555"]; [""; ""]; ["x"]]).
  reflexivity.
Defined.

(** ** Plain text, extracted *)

Lemma universal_newlines_unfold c s :
  Py.universal_newlines (String c s)
  = if Ascii.eqb c "013" then
      match s with
      | String d r =>
          if Ascii.eqb d "010" then String "010" (Py.universal_newlines r)
          else String "010" (Py.universal_newlines s)
      | EmptyString => String "010" EmptyString
      end
    else String c (Py.universal_newlines s).
Proof. by destruct s. Qed.

Lemma no_cr_cons c s :
  no_cr (String c s) = negb (Ascii.eqb c "013") && no_cr s.
Proof. done. Qed.

Lemma universal_newlines_clean n s :
  (Py.len s <= n)%nat -> no_cr (Py.universal_newlines s) = true.
Proof.
  revert s. induction n as [|n IH]; intros s Hn.
  - destruct s; [done|simpl in Hn; lia].
  - destruct s as [|c s]; [done|]. simpl in Hn.
    rewrite universal_newlines_unfold.
    destruct (Ascii.eqb c "013") eqn:Hc.
    + destruct s as [|d s]; [done|]. simpl in Hn.
      destruct (Ascii.eqb d "010"); rewrite no_cr_cons;
        (replace (Ascii.eqb "010" "013") with false by reflexivity);
        apply IH; simpl; lia.
    + rewrite no_cr_cons, Hc. apply IH. lia.
Qed.

(** X12. The text extracted from a [.txt] holds no carriage return,
    whatever the file holds, and reading that text once more would leave
    it as it is. *)
Theorem X12_txt_text_has_no_carriage_return stored :
  no_cr (Extractor.txt_text stored) = true
  /\ Extractor.txt_text (Extractor.txt_text stored)
     = Extractor.txt_text stored.
Proof.
  assert (H : no_cr (Extractor.txt_text stored) = true)
    by (by apply (universal_newlines_clean (Py.len stored))).
  split; [done|]. unfold Extractor.txt_text in *.
  by apply universal_newlines_no_cr.
Qed.

Lemma X12_witness :
  Extractor.txt_text Sample.with_cr = "a" +:+ nl +:+ "b"
  /\ no_cr (Extractor.txt_text Sample.with_cr) = true.
Proof.
  split; [reflexivity|].
  exact (proj1 (X12_txt_text_has_no_carriage_return Sample.with_cr)).
Defined.

(** ** Markup trees, extracted *)

Lemma element_induction (P : element -> Prop) :
  (forall text children tail,
     Forall P children -> P (Element text children tail)) ->
  forall e, P e.
Proof.
  intros H. fix IH 1. intros [text children tail]. apply H.
  induction children as [|child children IHc]; constructor;
    [apply IH|apply IHc].
Qed.

Section XmlShape.

Lemma shape_app b1 s1 b2 s2 :
  shape b1 s1 -> shape b2 s2 -> shape (b1 || b2) (s1 +:+ s2).
Proof.
  destruct b1, b2; simpl.
  - intros _ [r ->]. exists (s1 +:+ r). by rewrite app_assoc_str.
  - intros [r ->] ->. exists r. by rewrite app_empty_r.
  - intros -> [r ->]. by exists r.
  - by intros -> ->.
Qed.

Lemma shape_piece (o : option string) :
  shape (Extractor.opt_truthy o)
        (if Extractor.opt_truthy o then Extractor.opt_str o +:+ " " else "").
Proof. destruct (Extractor.opt_truthy o); simpl; eauto. Qed.

Lemma shape_children children b acc :
  Forall (fun e => shape (has_text e) (Extractor.extract_text_from_xml e))
         children ->
  shape b acc ->
  shape (b || existsb (fun child =>
                         has_text child
                         || match child with
                            | Element _ _ child_tail =>
                                Extractor.opt_truthy child_tail
                            end) children)
        (foldl (fun acc child =>
                  let acc' := acc +:+ Extractor.extract_text_from_xml child in
                  match child with
                  | Element _ _ tail =>
                      if Extractor.opt_truthy tail
                      then acc' +:+ Extractor.opt_str tail +:+ " "
                      else acc'
                  end) acc children).
Proof.
  intros Hall. revert b acc.
  induction Hall as [|child children Hchild _ IH]; intros b acc Hacc.
  - simpl. by rewrite orb_false_r.
  - cbn [existsb foldl]. rewrite orb_assoc. apply IH.
    pose proof (shape_app _ _ _ _ Hacc Hchild) as H1.
    destruct child as [text grand tail].
    pose proof (shape_app _ _ _ _ H1 (shape_piece tail)) as H2.
    rewrite <- !orb_assoc in H2.
    cbv zeta. destruct (Extractor.opt_truthy tail).
    + exact H2.
    + by rewrite app_empty_r in H2.
Qed.

Lemma xml_shape e : shape (has_text e) (Extractor.extract_text_from_xml e).
Proof.
  induction e as [text children tail Hall] using element_induction.
  exact (shape_children children
           (Extractor.opt_truthy text) _ Hall (shape_piece text)).
Qed.

(** X13. The text extracted from a markup tree is empty exactly when no
    element of the tree has a text and no child has a tail; otherwise it
    ends in a space. *)
Theorem X13_xml_text_ends_in_a_space e :
  (has_text e = false -> Extractor.extract_text_from_xml e = "")
  /\ (has_text e = true ->
      Extractor.extract_text_from_xml e <> ""
      /\ Py.endswith (Extractor.extract_text_from_xml e) " " = true).
Proof.
  pose proof (xml_shape e) as H. unfold shape in H.
  destruct (has_text e); split; try done.
  intros _. destruct H as [r ->]. split; [|apply endswith_app].
  by destruct r.
Qed.

End XmlShape.

Lemma X13_witness :
  Py.endswith
    (Extractor.extract_text_from_xml
       (Element None [Element (Some "Dr Smith") [] None] None)) " " = true.
Proof.
  apply (X13_xml_text_ends_in_a_space
           (Element None [Element (Some "Dr Smith") [] None] None)).
  reflexivity.
Defined.

(** ** From the check boxes to the run *)





Lemma X15_witness :
  Writer.new_file_name Txt "note.txt" = "note_anonymized.txt".
Proof.
  apply (new_file_name_single_occurrence Txt "note").
  intros k Hk. simpl in Hk.
  do 4 (destruct k as [|k]; [reflexivity|]). lia.
Defined.

(** ** A fixed-layout document that cannot be opened *)

(** X16. A [.pdf] that cannot be opened is not reported as an error: its
    text is taken to be empty, the Policy Engine is run on the empty text,
    and (the save returning) the file gets a success record and a
    document made from what the engine returned for the empty text. *)
Theorem X16_unopenable_pdf_is_a_success
    env cfg files st rep i path e :
  Batch.onAnonymizeButton env cfg = Batch.Done files st rep ->
  files !! i = Some path ->
  format_of_ext (Batch.file_ext_of path) = Some Pdf ->
  as_pdf (read_file env path) = Raised e ->
  save env (Batch.output_path_of (Batch.output_folder_of cfg) Pdf path)
       (WPdf (Policy.anonymize_text_presidio env "" (Batch.entities_of cfg)
                (Batch.method_of cfg) (Batch.threshold_of cfg)).1)
  = Returned () ->
  Batch.file_mappings st !! i
  = Some {| original_file_name := Py.basename path;
            anonymized_file_name :=
              Writer.new_file_name Pdf (Py.basename path);
            uuid_field := uuid4 env i |}
  /\ (i, EvAnalyze "" (Batch.entities_of cfg) (Batch.threshold_of cfg))
     ∈ Batch.trace st
  /\ (i, EvSave (Batch.output_path_of (Batch.output_folder_of cfg) Pdf path)
           (WPdf (Policy.anonymize_text_presidio env ""
                    (Batch.entities_of cfg) (Batch.method_of cfg)
                    (Batch.threshold_of cfg)).1))
     ∈ Batch.trace st.
Proof.
  intros (_ & _ & -> & _)%run_done_inv Hi Hf Hpdf Hs.
  assert (Htry : Batch.try_file env (Batch.output_folder_of cfg)
                   (Batch.entities_of cfg) (Batch.method_of cfg)
                   (Batch.threshold_of cfg) i path
                 = ((Policy.anonymize_text_presidio env ""
                       (Batch.entities_of cfg) (Batch.method_of cfg)
                       (Batch.threshold_of cfg)).2
                    ++ [EvSave (Batch.output_path_of
                                  (Batch.output_folder_of cfg) Pdf path)
                               (WPdf (Policy.anonymize_text_presidio env ""
                                        (Batch.entities_of cfg)
                                        (Batch.method_of cfg)
                                        (Batch.threshold_of cfg)).1)],
                    Returned (Writer.new_file_name Pdf (Py.basename path),
                              uuid4 env i))).
  { unfold Batch.try_file, Extractor.extract, Batch.file_ext_of,
      Batch.output_path_of in *.
    rewrite Hf, Hpdf. simpl Extractor.pdf_text.
    destruct (Policy.anonymize_text_presidio _ _ _ _ _) as [t evs].
    cbn [fst snd] in Hs |- *. unfold Writer.render, Writer.save_str_pdf.
    by rewrite Hs. }
  split_and!.
  - rewrite (process_all_lookup _ _ _ _ _ _ _ _ Hi).
    unfold Batch.record_of. by rewrite Htry.
  - apply trace_elem. exists path. split; [done|]. rewrite Htry. simpl.
    apply elem_of_app. left. unfold Policy.anonymize_text_presidio.
    destruct (analyze env _ _ _); [destruct (anonymize env _ _ _)|];
      simpl; by left.
  - apply trace_elem. exists path. split; [done|]. rewrite Htry. simpl.
    apply elem_of_app. right. by left.
Qed.

(** ** What the detector is given *)

(** X17. Every call of the detector in a run is made for a discovered
    file, with the whole text extracted from that file and with the
    entities and the threshold of the run; a file whose extraction raised
    is never shown to the detector. *)
Theorem X17_detector_sees_the_extracted_text
    env cfg files st rep i text entities threshold :
  Batch.onAnonymizeButton env cfg = Batch.Done files st rep ->
  (i, EvAnalyze text entities threshold) ∈ Batch.trace st ->
  entities = Batch.entities_of cfg
  /\ threshold = Batch.threshold_of cfg
  /\ exists path,
       files !! i = Some path
       /\ Extractor.extract (python env) (Batch.file_ext_of path)
            (read_file env path)
          = Returned text.
Proof.
  intros (_ & _ & -> & _)%run_done_inv (path & Hi & Hev)%trace_elem.
  unfold Batch.try_file, Batch.file_ext_of in *.
  destruct (Extractor.extract _ _ _) as [full_text|e] eqn:Hx; simpl in Hev;
    [|by apply elem_of_nil in Hev].
  assert (Hin : EvAnalyze text entities threshold
                ∈ (Policy.anonymize_text_presidio env full_text
                     (Batch.entities_of cfg) (Batch.method_of cfg)
                     (Batch.threshold_of cfg)).2).
  { destruct (Policy.anonymize_text_presidio _ _ _ _ _) as [t evs].
    destruct (format_of_ext _); simpl in Hev |- *; [|done].
    destruct (save env _ _) as [[]|]; simpl in Hev; [|done].
    apply elem_of_app in Hev as [Hev|Hev]; [done|].
    by apply list_elem_of_singleton in Hev. }
  clear Hev. unfold Policy.anonymize_text_presidio in Hin.
  assert (text = full_text /\ entities = Batch.entities_of cfg
          /\ threshold = Batch.threshold_of cfg) as (-> & -> & ->).
  { destruct (analyze env _ _ _); [destruct (anonymize env _ _ _)|];
      simpl in Hin; rewrite ?elem_of_cons, elem_of_nil in Hin;
      repeat destruct Hin as [Hin|Hin]; try done;
      by injection Hin as -> -> ->. }
  eauto.
Qed.

Lemma X17_witness :
  exists path,
    Sample.paths_three !! 2%nat = Some path
    /\ Extractor.extract (python Sample.env_three) (Batch.file_ext_of path)
         (read_file Sample.env_three path)
       = Returned "content of /in/c.txt".
Proof.
  refine (proj2 (proj2 (X17_detector_sees_the_extracted_text
                          Sample.env_three
                          (Sample.settings_of "replace") Sample.paths_three
                          (Sample.run Sample.env_three "replace"
                                      Sample.paths_three)
                          (Sample.report_of
                             (Sample.run Sample.env_three "replace"
                                         Sample.paths_three))
                          2%nat "content of /in/c.txt"
                          ["PERSON"; "PHONE_NUMBER"] (1 # 2) _ _))).
  - vm_compute. reflexivity.
  - apply trace_elem. exists "/in/c.txt". split; [reflexivity|].
    apply list_elem_of_In. vm_compute. auto 10.
Defined.

Lemma X16_witness :
  Batch.file_mappings (Sample.run env_broken_pdf "replace" ["/in/scan.pdf"])
    !! 0%nat
  = Some {| original_file_name := "scan.pdf";
            anonymized_file_name := "scan_anonymized.pdf";
            uuid_field := "uuid-0" |}.
Proof.
  refine (proj1 (X16_unopenable_pdf_is_a_success env_broken_pdf
                   (Sample.settings_of "replace") ["/in/scan.pdf"]
                   (Sample.run env_broken_pdf "replace" ["/in/scan.pdf"])
                   (Sample.report_of
                      (Sample.run env_broken_pdf "replace" ["/in/scan.pdf"]))
                   0%nat "/in/scan.pdf" "No /Root object" _ _ _ _ _)).
  - vm_compute. reflexivity.
  - reflexivity.
  - reflexivity.
  - reflexivity.
  - reflexivity.
Defined.
